(** * PaliGemma Vision QA: a shallow embedding of [PaliGemma.py]

    The program is a Streamlit script: every user interaction re-runs the
    script top to bottom against the current widget values, with
    [st.session_state] and the [st.cache_resource] cache surviving from one
    run to the next.  The embedding follows that shape:

    - Python [str] values are sequences of Unicode code points;
    - the external collaborators (model hub, HTTP client, PIL, processor,
      model, wall clock) are gathered in a record [World];
    - the code runs in a state-and-exception monad [M] whose state keeps
      the session state, the resource cache, the rendered UI output, the
      trace of external calls, the clock and torch's gradient mode.  State
      changes made before an exception is raised persist, as in Python. *)

From Stdlib Require Import List String Ascii NArith ZArith Bool Lia.
From Stdlib Require Import Strings.Byte DecimalString.
Import ListNotations.

Local Open Scope list_scope.

(** ** Python strings *)

(** A Python [str]: a sequence of code points. *)
Definition str := list N.

(** UTF-8 decoding, used only to write the source's literals legibly.
    [pending] counts the continuation bytes still expected and [acc] holds
    the bits read so far. *)
Fixpoint utf8_go (pending : nat) (acc : N) (bs : list N) : str :=
  match bs with
  | [] => []
  | b :: bs' =>
      match pending with
      | O =>
          if (b <? 128)%N then b :: utf8_go 0 0%N bs'
          else if (b <? 224)%N then utf8_go 1 (b - 192)%N bs'
          else if (b <? 240)%N then utf8_go 2 (b - 224)%N bs'
          else utf8_go 3 (b - 240)%N bs'
      | S O => (acc * 64 + (b - 128))%N :: utf8_go 0 0%N bs'
      | S p => utf8_go p (acc * 64 + (b - 128))%N bs'
      end
  end.

Definition lit (s : string) : str :=
  utf8_go 0 0%N (map N_of_ascii (list_ascii_of_string s)).

Notation "'u' s" := (lit s%string) (at level 1, s at level 0, only parsing).

(** [a == b] on strings. *)
Fixpoint str_eqb (a b : str) : bool :=
  match a, b with
  | [], [] => true
  | x :: a', y :: b' => (x =? y)%N && str_eqb a' b'
  | _, _ => false
  end.

(** [Py_UNICODE_ISSPACE]: the code points that [str.strip()] removes. *)
Definition isspace (c : N) : bool :=
  ((9 <=? c) && (c <=? 13) || (28 <=? c) && (c <=? 32)
   || (c =? 133) || (c =? 160) || (c =? 5760)
   || (8192 <=? c) && (c <=? 8202)
   || (c =? 8232) || (c =? 8233) || (c =? 8239) || (c =? 8287)
   || (c =? 12288))%N.

Fixpoint lstrip (s : str) : str :=
  match s with
  | c :: s' => if isspace c then lstrip s' else s
  | [] => []
  end.

Definition rstrip (s : str) : str := rev (lstrip (rev s)).

(** [s.strip()] *)
Definition strip (s : str) : str := rstrip (lstrip s).

(** Truthiness of a [str]: non-empty. *)
Definition str_truthy (s : str) : bool :=
  match s with [] => false | _ :: _ => true end.

(** Decimal rendering of a number, as an f-string gives it. *)
Definition str_of_N (n : N) : str :=
  map N_of_ascii (list_ascii_of_string (NilZero.string_of_uint (N.to_uint n))).

(** ** Data model *)

Definition bytes := list byte.

(** A raised Python exception.  [exn_is_Exception] tells whether its class
    derives from [Exception] (what [except Exception] catches) or only
    from [BaseException] ([KeyboardInterrupt], [SystemExit], ...);
    [exn_str] is [str(e)]. *)
Record exn := mk_exn {
  exn_class : string;
  exn_is_Exception : bool;
  exn_str : str
}.

(** [torch.device("cuda")] and [torch.device("cpu")]. *)
Inductive device := Cuda | Cpu.

Definition device_str (d : device) : str :=
  match d with Cuda => u"cuda" | Cpu => u"cpu" end.

Inductive dtype := Bfloat16 | Float16 | Float32.

(** PIL image modes and their number of bands. *)
Inductive color_mode :=
| Mode1 | ModeL | ModeP | ModeLA | ModePA | ModeI | ModeF
| ModeRGB | ModeRGBA | ModeRGBX | ModeCMYK | ModeYCbCr | ModeLAB | ModeHSV.

Definition bands (m : color_mode) : nat :=
  match m with
  | Mode1 | ModeL | ModeP | ModeI | ModeF => 1
  | ModeLA | ModePA => 2
  | ModeRGB | ModeYCbCr | ModeLAB | ModeHSV => 3
  | ModeRGBA | ModeRGBX | ModeCMYK => 4
  end.

(** A decoded PIL image; pixel contents are not modelled. *)
Record image := mk_image {
  im_mode : color_mode;
  im_width : N;
  im_height : N
}.

(** [img.convert(mode)]: same size, the requested mode. *)
Definition convert (m : color_mode) (img : image) : image :=
  {| im_mode := m; im_width := im_width img; im_height := im_height img |}.

Definition channels (img : image) : nat := bands (im_mode img).

(** Handles of the pretrained model and of its processor. *)
Record model := mk_model {
  model_name : string;
  model_dtype : dtype;
  model_device : device
}.

Record processor := mk_processor { processor_name : string }.

(** The [BatchFeature] a processor returns. *)
Record batch := mk_batch {
  input_ids : list N;
  batch_device : device;
  batch_dtype : dtype
}.

(** A [requests.Response]; reading [content] of a streamed response can
    itself fail. *)
Record response := mk_response {
  status_code : N;
  reason : str;
  response_url : str;
  content : exn + bytes
}.

(** Calls that leave the program. *)
Inductive call :=
| Call_model_from_pretrained (model_id : string) (torch_dtype : dtype) (device_map : device)
| Call_processor_from_pretrained (model_id : string)
| Call_requests_get (url : str) (stream : bool) (timeout : N)
| Call_Image_open (data : bytes)
| Call_processor (p : processor) (text : str) (images : image)
    (padding : string) (do_convert_rgb : bool) (return_tensors : string)
| Call_to_device (b : batch) (d : device)
| Call_to_dtype (b : batch) (t : dtype)
| Call_generate (m : model) (inputs : batch) (max_length : N)
| Call_decode (p : processor) (tokens : list N) (skip_special_tokens : bool).

(** The external collaborators: what each call answers and how long it
    takes on the wall clock (in nanoseconds). *)
Record World := mk_World {
  cuda_is_available : bool;
  model_from_pretrained : string -> dtype -> device -> exn + model;
  processor_from_pretrained : string -> exn + processor;
  requests_get : str -> bool -> N -> exn + response;
  Image_open : bytes -> exn + image;
  processor_call : processor -> str -> image -> string -> bool -> string -> exn + batch;
  batch_to_device : batch -> device -> exn + batch;
  batch_to_dtype : batch -> dtype -> exn + batch;
  model_generate : model -> batch -> N -> exn + list (list N);
  processor_decode : processor -> list N -> bool -> exn + str;
  duration : call -> Z
}.

(** What Streamlit has rendered. *)
Inductive ui_event :=
| UiTitle (s : str)
| UiMarkdown (s : str)
| UiHeader (s : str)
| UiSubheader (s : str)
| UiInfo (s : str)
| UiSuccess (s : str)
| UiWarning (s : str)
| UiError (s : str)
| UiSpinner (s : str)
| UiImage (img : image) (caption : str)
| UiResultBox (result : str)
| UiMetric (label value : str)
| UiMetricSeconds (label : str) (t : Z)
| UiCode (s : str).

(** [st.session_state] once the script's prelude has filled its three keys. *)
Record session_state := mk_session {
  ss_model : option model;
  ss_processor : option processor;
  ss_device : device
}.

(** An external call as it was made: the call and torch's gradient mode
    at that moment. *)
Record entry := mk_entry {
  entry_call : call;
  entry_grad : bool
}.

(** [inference_calls] is a ghost counter, absent from the source: it
    counts how many times [inference] has been entered. *)
Record state := mk_state {
  session : session_state;
  cache : option (model * processor * device);
  rendered : list ui_event;
  trace : list entry;
  clock : Z;
  grad_enabled : bool;
  inference_calls : nat
}.

Definition with_session (ss : session_state) (s : state) : state :=
  mk_state ss (cache s) (rendered s) (trace s) (clock s) (grad_enabled s)
    (inference_calls s).

Definition with_cache (c : option (model * processor * device)) (s : state)
  : state :=
  mk_state (session s) c (rendered s) (trace s) (clock s) (grad_enabled s)
    (inference_calls s).

Definition with_grad (g : bool) (s : state) : state :=
  mk_state (session s) (cache s) (rendered s) (trace s) (clock s) g
    (inference_calls s).

Definition render (e : ui_event) (s : state) : state :=
  mk_state (session s) (cache s) (rendered s ++ [e]) (trace s) (clock s)
    (grad_enabled s) (inference_calls s).

Definition called (c : call) (d : Z) (s : state) : state :=
  mk_state (session s) (cache s) (rendered s)
    (trace s ++ [mk_entry c (grad_enabled s)]) (clock s + d)%Z
    (grad_enabled s) (inference_calls s).

Definition entered_inference (s : state) : state :=
  mk_state (session s) (cache s) (rendered s) (trace s) (clock s)
    (grad_enabled s) (S (inference_calls s)).

(** ** The monad: state that survives exceptions *)

Inductive outcome (A : Type) :=
| Ok (a : A)
| Raise (e : exn).
Arguments Ok {A} a.
Arguments Raise {A} e.

Definition M (A : Type) := state -> outcome A * state.

Definition ret {A} (a : A) : M A := fun s => (Ok a, s).

Definition raise {A} (e : exn) : M A := fun s => (Raise e, s).

Definition bind {A B} (c : M A) (k : A -> M B) : M B :=
  fun s =>
    match c s with
    | (Ok a, s') => k a s'
    | (Raise e, s') => (Raise e, s')
    end.

Declare Scope py_scope.
Delimit Scope py_scope with py.
Notation "x <- c ;; k" := (bind c (fun x => k))
  (at level 61, c at next level, right associativity) : py_scope.
Notation "c ;; k" := (bind c (fun _ => k))
  (at level 61, right associativity) : py_scope.
Local Open Scope py_scope.

Definition gets {A} (f : state -> A) : M A := fun s => (Ok (f s), s).

Definition modify (f : state -> state) : M unit := fun s => (Ok tt, f s).

(** [try: body  except Exception as e: handler e].  Only classes deriving
    from [Exception] are caught; anything else keeps propagating. *)
Definition try_except {A} (body : M A) (handler : exn -> M A) : M A :=
  fun s =>
    match body s with
    | (Ok a, s') => (Ok a, s')
    | (Raise e, s') =>
        if exn_is_Exception e then handler e s' else (Raise e, s')
    end.

(** [with torch.no_grad(): body]: gradient tracking is switched off for
    the body and put back afterwards, also when the body raises. *)
Definition no_grad {A} (body : M A) : M A :=
  fun s =>
    let prev := grad_enabled s in
    match body (with_grad false s) with
    | (r, s') => (r, with_grad prev s')
    end.

(** [time.time()], in the clock's unit. *)
Definition time_time : M Z := gets clock.

(** Streamlit output. *)
Definition st (e : ui_event) : M unit := modify (render e).

(** [with st.spinner(msg): body] *)
Definition st_spinner {A} (msg : str) (body : M A) : M A :=
  st (UiSpinner msg) ;; body.

(** ** The program *)

(** Exceptions the modelled code raises by itself (all derive from
    [Exception]). *)
Definition HTTPError (msg : str) : exn := mk_exn "HTTPError" true msg.

Definition IndexError : exn :=
  mk_exn "IndexError" true
    (u"index 0 is out of bounds for dimension 0 with size 0").

Definition TypeError_not_callable : exn :=
  mk_exn "TypeError" true (u"'NoneType' object is not callable").

Definition AttributeError_decode : exn :=
  mk_exn "AttributeError" true
    (u"'NoneType' object has no attribute 'decode'").

(** [requests.Response.raise_for_status]: an [HTTPError] for a status in
    400..599, nothing otherwise. *)
Definition http_error_msg (r : response) : str :=
  let sc := status_code r in
  if ((400 <=? sc) && (sc <? 500))%N then
    str_of_N sc ++ u" Client Error: " ++ reason r ++ u" for url: "
      ++ response_url r
  else if ((500 <=? sc) && (sc <? 600))%N then
    str_of_N sc ++ u" Server Error: " ++ reason r ++ u" for url: "
      ++ response_url r
  else [].

Definition raise_for_status (r : response) : M unit :=
  if str_truthy (http_error_msg r) then raise (HTTPError (http_error_msg r))
  else ret tt.

(** The three choices of the image-source radio (line 120). *)
Definition radio_options : list str :=
  [u"上傳本機檔案"; u"輸入圖片 URL"; u"拍攝照片"].

(** [st.radio]: the label of the selected option. *)
Definition st_radio (options : list str) (selected : nat) : str :=
  nth selected options (hd [] options).

(** The widget values of one script run. *)
Record widgets := mk_widgets {
  load_model_button : bool;
  image_source_index : nat;
  uploaded_file : option bytes;
  url_input : str;
  load_image_button : bool;
  camera_picture : option bytes;
  question_input : str;
  ask_button : bool
}.

Definition model_id : string := "google/PaliGemma-3b-mix-224".

Section Program.

Variable w : World.

(** An external call: it is logged, takes its time, and returns or
    raises what the world answers. *)
Definition external {A} (c : call) (r : exn + A) : M A :=
  fun s =>
    let s' := called c (duration w c) s in
    match r with
    | inr a => (Ok a, s')
    | inl e => (Raise e, s')
    end.

(** [torch.device("cuda" if torch.cuda.is_available() else "cpu")] *)
Definition pick_device : device :=
  if cuda_is_available w then Cuda else Cpu.

(** The initial [st.session_state] (lines 30-35). *)
Definition initial_session : session_state :=
  mk_session None None pick_device.

(** Body of [load_model] (lines 38-51). *)
Definition load_model_body : M (model * processor * device) :=
  let device := pick_device in
  r <- st_spinner (u"正在載入 PaliGemma 模型... 這可能需要 1-2 分鐘")
         (model <- external
                     (Call_model_from_pretrained model_id Bfloat16 device)
                     (model_from_pretrained w model_id Bfloat16 device) ;;
          processor <- external
                         (Call_processor_from_pretrained model_id)
                         (processor_from_pretrained w model_id) ;;
          ret (model, processor)) ;;
  ret (fst r, snd r, device).

(** [@st.cache_resource]: the body runs when nothing is cached, and its
    value is stored only when it returns. *)
Definition cache_resource (body : M (model * processor * device))
  : M (model * processor * device) :=
  c <- gets cache ;;
  match c with
  | Some v => ret v
  | None =>
      v <- body ;;
      modify (with_cache (Some v)) ;;
      ret v
  end.

Definition load_model : M (model * processor * device) :=
  cache_resource load_model_body.

(** The [try] block of [inference] (lines 57-77).  [processor] is the
    session's value and may be [None]. *)
Definition inference_steps (model : model) (processor : option processor)
    (image : image) (input_text : str) (device : device)
  : M (str * option Z) :=
  inputs <- match processor with
            | Some p =>
                external
                  (Call_processor p input_text image "longest" true "pt")
                  (processor_call w p input_text image "longest" true "pt")
            | None => raise TypeError_not_callable
            end ;;
  inputs <- external (Call_to_device inputs device)
              (batch_to_device w inputs device) ;;
  inputs <- external (Call_to_dtype inputs (model_dtype model))
              (batch_to_dtype w inputs (model_dtype model)) ;;
  start_time <- time_time ;;
  output <- no_grad
              (external (Call_generate model inputs 496)
                 (model_generate w model inputs 496)) ;;
  now <- time_time ;;
  let inference_time := (now - start_time)%Z in
  first <- match output with
           | seq :: _ => ret seq
           | [] => raise IndexError
           end ;;
  result <- match processor with
            | Some p =>
                external (Call_decode p first true)
                  (processor_decode w p first true)
            | None => raise AttributeError_decode
            end ;;
  ret (result, Some inference_time).

(** [inference] (lines 54-80). *)
Definition inference (model : model) (processor : option processor)
    (image : image) (input_text : str) (device : device)
  : M (str * option Z) :=
  modify entered_inference ;;
  try_except
    (inference_steps model processor image input_text device)
    (fun e => ret (u"錯誤: " ++ exn_str e, None)).

(** [load_image_from_url] (lines 83-92). *)
Definition load_image_from_url (url : str) : M (option image) :=
  try_except
    (response <- external (Call_requests_get url true 10)
                   (requests_get w url true 10) ;;
     raise_for_status response ;;
     body <- match content response with
             | inr b => ret b
             | inl e => raise e
             end ;;
     image <- external (Call_Image_open body) (Image_open w body) ;;
     ret (Some (convert ModeRGB image)))
    (fun e =>
       st (UiError (u"無法從 URL 載入圖片: " ++ exn_str e)) ;;
       ret None).

(** [main], the sidebar block (lines 100-110). *)
Definition sidebar (ui : widgets) : M unit :=
  st (UiHeader (u"設定")) ;;
  device_info <- gets (fun s => ss_device (session s)) ;;
  st (UiInfo (u"使用設備: " ++ device_str device_info)) ;;
  (if load_model_button ui then
     r <- load_model ;;
     modify (with_session
               (mk_session (Some (fst (fst r))) (Some (snd (fst r))) (snd r))) ;;
     st (UiSuccess (u"模型已載入!"))
   else ret tt) ;;
  m <- gets (fun s => ss_model (session s)) ;;
  match m with
  | None => st (UiWarning (u"請先點擊上方按鈕載入模型"))
  | Some _ => ret tt
  end.

(** [main], the image column (lines 115-148); its value is the local
    variable [image]. *)
Definition image_column (ui : widgets) : M (option image) :=
  st (UiSubheader (u"圖片來源")) ;;
  let image_source := st_radio radio_options (image_source_index ui) in
  image <-
    (if str_eqb image_source (u"上傳本機檔案") then
       match uploaded_file ui with
       | Some f =>
           img <- external (Call_Image_open f) (Image_open w f) ;;
           ret (Some (convert ModeRGB img))
       | None => ret None
       end
     else if str_eqb image_source (u"輸入圖片 URL") then
       if str_truthy (url_input ui) && load_image_button ui then
         load_image_from_url (url_input ui)
       else ret None
     else if str_eqb image_source (u"📷 拍攝照片") then
       match camera_picture ui with
       | Some picture =>
           img <- external (Call_Image_open picture) (Image_open w picture) ;;
           ret (Some (convert ModeRGB img))
       | None => ret None
       end
     else ret None) ;;
  match image with
  | Some img => st (UiImage img (u"已選擇圖片"))
  | None => ret tt
  end ;;
  ret image.

(** [main], the question column (lines 150-195).  [if inference_time:]
    is false for [None] and for zero. *)
Definition question_column (ui : widgets) (image : option image) : M unit :=
  st (UiSubheader (u"問題")) ;;
  let input_text := question_input ui in
  st (UiMarkdown (u"---")) ;;
  if ask_button ui then
    m <- gets (fun s => ss_model (session s)) ;;
    match m with
    | None => st (UiError (u"請先在左側載入模型!"))
    | Some model =>
        match image with
        | None => st (UiError (u"請先選擇一張圖片!"))
        | Some img =>
            if negb (str_truthy (strip input_text)) then
              st (UiError (u"請輸入問題!"))
            else
              processor <- gets (fun s => ss_processor (session s)) ;;
              device <- gets (fun s => ss_device (session s)) ;;
              r <- st_spinner (u"AI 正在思考中...")
                     (inference model processor img input_text device) ;;
              let result := fst r in
              let inference_time := snd r in
              st (UiMarkdown (u"結果")) ;;
              st (UiResultBox result) ;;
              (match inference_time with
               | Some t =>
                   if (t =? 0)%Z then ret tt
                   else st (UiMetricSeconds (u"推理時間") t)
               | None => ret tt
               end) ;;
              st (UiMetric (u"模型大小") (u"3B 參數")) ;;
              st (UiCode result)
        end
    end
  else ret tt.

(** [main] (lines 95-195). *)
Definition main (ui : widgets) : M unit :=
  st (UiTitle (u"PaliGemma Vision Question Answering")) ;;
  st (UiMarkdown (u"用 AI 詢問圖片中的任何問題 | Ask AI anything about images")) ;;
  sidebar ui ;;
  image <- image_column ui ;;
  question_column ui image.

End Program.

(** The part of [main] that runs before the question column; its value is
    the local variable [image] as the validation gate sees it. *)
Definition before_question (w : World) (ui : widgets) : M (option image) :=
  st (UiTitle (u"PaliGemma Vision Question Answering")) ;;
  st (UiMarkdown (u"用 AI 詢問圖片中的任何問題 | Ask AI anything about images")) ;;
  sidebar w ui ;;
  image_column w ui.

(** ** Conditions on the world *)

(** The two failure kinds of the specification. *)
Inductive failure_kind := NetworkError | DecodeError.

(** How a fetch of [url] fails in world [w], with the exception that
    reaches the handler of [load_image_from_url]. *)
Inductive url_failure (w : World) (url : str) : failure_kind -> exn -> Prop :=
| request_raises (e : exn) :
    requests_get w url true 10 = inl e ->
    url_failure w url NetworkError e
| error_status (r : response) :
    requests_get w url true 10 = inr r ->
    (400 <= status_code r < 600)%N ->
    url_failure w url NetworkError (HTTPError (http_error_msg r))
| body_raises (r : response) (e : exn) :
    requests_get w url true 10 = inr r ->
    ~ (400 <= status_code r < 600)%N ->
    content r = inl e ->
    url_failure w url NetworkError e
| not_an_image (r : response) (b : bytes) (e : exn) :
    requests_get w url true 10 = inr r ->
    ~ (400 <= status_code r < 600)%N ->
    content r = inr b ->
    Image_open w b = inl e ->
    url_failure w url DecodeError e.

Section PipelineConditions.

Variable w : World.
Variables (m : model) (p : processor) (img : image) (text : str) (d : device).

(** The first step of [inference] that raises, and what it raises. *)
Inductive step_failure : exn -> Prop :=
| encoding_raises (e : exn) :
    processor_call w p text img "longest" true "pt" = inl e ->
    step_failure e
| device_transfer_raises (b0 : batch) (e : exn) :
    processor_call w p text img "longest" true "pt" = inr b0 ->
    batch_to_device w b0 d = inl e ->
    step_failure e
| dtype_transfer_raises (b0 b1 : batch) (e : exn) :
    processor_call w p text img "longest" true "pt" = inr b0 ->
    batch_to_device w b0 d = inr b1 ->
    batch_to_dtype w b1 (model_dtype m) = inl e ->
    step_failure e
| generation_raises (b0 b1 b2 : batch) (e : exn) :
    processor_call w p text img "longest" true "pt" = inr b0 ->
    batch_to_device w b0 d = inr b1 ->
    batch_to_dtype w b1 (model_dtype m) = inr b2 ->
    model_generate w m b2 496 = inl e ->
    step_failure e
| empty_output (b0 b1 b2 : batch) :
    processor_call w p text img "longest" true "pt" = inr b0 ->
    batch_to_device w b0 d = inr b1 ->
    batch_to_dtype w b1 (model_dtype m) = inr b2 ->
    model_generate w m b2 496 = inr [] ->
    step_failure IndexError
| decoding_raises (b0 b1 b2 : batch) (seq : list N) (rest : list (list N))
    (e : exn) :
    processor_call w p text img "longest" true "pt" = inr b0 ->
    batch_to_device w b0 d = inr b1 ->
    batch_to_dtype w b1 (model_dtype m) = inr b2 ->
    model_generate w m b2 496 = inr (seq :: rest) ->
    processor_decode w p seq true = inl e ->
    step_failure e.

(** All steps succeed: the batches after each preparation step, the
    generated sequences and the decoded text. *)
Record run_ok (b0 b1 b2 : batch) (seq : list N) (rest : list (list N))
    (txt : str) : Prop := mk_run_ok {
  ok_encode : processor_call w p text img "longest" true "pt" = inr b0;
  ok_device : batch_to_device w b0 d = inr b1;
  ok_dtype : batch_to_dtype w b1 (model_dtype m) = inr b2;
  ok_generate : model_generate w m b2 496 = inr (seq :: rest);
  ok_decode : processor_decode w p seq true = inr txt
}.

End PipelineConditions.

(** How loading fails in world [w] when nothing is cached: the model does
    not load, or the model loads and the processor does not. *)
Inductive load_failure (w : World) : exn -> Prop :=
| model_load_raises (e : exn) :
    model_from_pretrained w model_id Bfloat16 (pick_device w) = inl e ->
    load_failure w e
| processor_load_raises (mdl : model) (e : exn) :
    model_from_pretrained w model_id Bfloat16 (pick_device w) = inr mdl ->
    processor_from_pretrained w model_id = inl e ->
    load_failure w e.

(** A computation that never enters [inference]. *)
Definition keeps_count {A} (c : M A) : Prop :=
  forall s, inference_calls (snd (c s)) = inference_calls s.

(** ** Concrete worlds and runs *)

Module Samples.

Definition png_bytes : bytes := [x89; x50; x4e; x47; x0d; x0a; x1a; x0a]%byte.

Definition html_bytes : bytes := [x3c; x68; x74; x6d; x6c; x3e]%byte.

Definition rgba_image : image := mk_image ModeRGBA 224 224.

Definition the_processor : processor := mk_processor model_id.

Definition the_model : model := mk_model model_id Bfloat16 Cpu.

Definition UnidentifiedImageError : exn :=
  mk_exn "UnidentifiedImageError" true (u"cannot identify image file").

Definition ConnectTimeout : exn :=
  mk_exn "ConnectTimeout" true (u"Connection to example.com timed out.").

Definition OutOfMemoryError : exn :=
  mk_exn "OutOfMemoryError" true (u"CUDA out of memory.").

Definition OSError_weights : exn :=
  mk_exn "OSError" true (u"google/PaliGemma-3b-mix-224 does not appear to have a file named config.json.").

Definition answer_tokens : list N := [114; 101; 100]%N.

Definition is_png (b : bytes) : bool :=
  match b with
  | x89 :: x50 :: x4e :: x47 :: _ => true
  | _ => false
  end.

(** A world where everything works: the URL serves a PNG with status
    [status], the tokenizer maps code points to themselves, and the model
    appends [answer_tokens] to the prompt, cut at [max_length]. *)
Definition world_with_status (status : N) : World :=
  {| cuda_is_available := false;
     model_from_pretrained := fun name t d => inr (mk_model name t d);
     processor_from_pretrained := fun name => inr (mk_processor name);
     requests_get := fun url _ _ =>
       inr (mk_response status (u"Reason") url (inr png_bytes));
     Image_open := fun b =>
       if is_png b then inr rgba_image else inl UnidentifiedImageError;
     processor_call := fun _ text _ _ _ _ => inr (mk_batch text Cpu Float32);
     batch_to_device := fun b d => inr (mk_batch (input_ids b) d (batch_dtype b));
     batch_to_dtype := fun b t => inr (mk_batch (input_ids b) (batch_device b) t);
     model_generate := fun _ b n =>
       inr [firstn (N.to_nat n) (input_ids b ++ answer_tokens)];
     processor_decode := fun _ toks _ => inr toks;
     duration := fun c =>
       match c with
       | Call_processor _ _ _ _ _ _ => 11
       | Call_to_device _ _ => 3
       | Call_to_dtype _ _ => 2
       | Call_generate _ _ _ => 700
       | Call_decode _ _ _ => 5
       | _ => 40
       end%Z |}.

Definition world_ok : World := world_with_status 200.

(** The URL cannot be reached within the timeout. *)
Definition world_timeout : World :=
  {| cuda_is_available := false;
     model_from_pretrained := model_from_pretrained world_ok;
     processor_from_pretrained := processor_from_pretrained world_ok;
     requests_get := fun _ _ _ => inl ConnectTimeout;
     Image_open := Image_open world_ok;
     processor_call := processor_call world_ok;
     batch_to_device := batch_to_device world_ok;
     batch_to_dtype := batch_to_dtype world_ok;
     model_generate := model_generate world_ok;
     processor_decode := processor_decode world_ok;
     duration := duration world_ok |}.

(** The URL answers 200 with a body that is no image. *)
Definition world_not_an_image : World :=
  {| cuda_is_available := false;
     model_from_pretrained := model_from_pretrained world_ok;
     processor_from_pretrained := processor_from_pretrained world_ok;
     requests_get := fun url _ _ =>
       inr (mk_response 200 (u"OK") url (inr html_bytes));
     Image_open := Image_open world_ok;
     processor_call := processor_call world_ok;
     batch_to_device := batch_to_device world_ok;
     batch_to_dtype := batch_to_dtype world_ok;
     model_generate := model_generate world_ok;
     processor_decode := processor_decode world_ok;
     duration := duration world_ok |}.

(** Generation runs out of memory. *)
Definition world_oom : World :=
  {| cuda_is_available := false;
     model_from_pretrained := model_from_pretrained world_ok;
     processor_from_pretrained := processor_from_pretrained world_ok;
     requests_get := requests_get world_ok;
     Image_open := Image_open world_ok;
     processor_call := processor_call world_ok;
     batch_to_device := batch_to_device world_ok;
     batch_to_dtype := batch_to_dtype world_ok;
     model_generate := fun _ _ _ => inl OutOfMemoryError;
     processor_decode := processor_decode world_ok;
     duration := duration world_ok |}.

(** The model loads, its processor does not. *)
Definition world_no_processor : World :=
  {| cuda_is_available := false;
     model_from_pretrained := model_from_pretrained world_ok;
     processor_from_pretrained := fun _ => inl OSError_weights;
     requests_get := requests_get world_ok;
     Image_open := Image_open world_ok;
     processor_call := processor_call world_ok;
     batch_to_device := batch_to_device world_ok;
     batch_to_dtype := batch_to_dtype world_ok;
     model_generate := model_generate world_ok;
     processor_decode := processor_decode world_ok;
     duration := duration world_ok |}.

(** A fresh browser session, and one whose model is loaded. *)
Definition fresh : state :=
  mk_state (initial_session world_ok) None [] [] 0%Z true 0.

Definition loaded : state :=
  mk_state (mk_session (Some the_model) (Some the_processor) Cpu)
    (Some (the_model, the_processor, Cpu)) [] [] 0%Z true 0.

Definition example_url : str := u"https://example.com/image.jpg".

Definition no_input : widgets :=
  mk_widgets false 0 None [] false None [] false.

Definition click_load_model : widgets :=
  mk_widgets true 0 None [] false None [] false.

Definition ask_upload (question : str) : widgets :=
  mk_widgets false 0 (Some png_bytes) [] false None question true.

Definition fetch_url : widgets :=
  mk_widgets false 1 None example_url true None [] false.

Definition take_photo : widgets :=
  mk_widgets false 2 None [] false (Some png_bytes) (u"What is this?") true.

End Samples.

(** ** Frames and further scenarios *)

(** A computation that leaves the observation [f] of the state as it
    found it, whether it returns or raises. *)
Definition keeps {A B} (f : state -> B) (c : M A) : Prop :=
  forall s, f (snd (c s)) = f s.

(** [st.session_state] together with the [st.cache_resource] entry. *)
Definition store (s : state) : session_state * option (model * processor * device) :=
  (session s, cache s).

(** The store together with what has been rendered. *)
Definition quiet (s : state)
  : session_state * option (model * processor * device) * list ui_event :=
  (session s, cache s, rendered s).

(** The session holds a processor whenever it holds a model. *)
Definition session_complete (ss : session_state) : Prop :=
  ss_model ss <> None -> ss_processor ss <> None.

(** What the question column renders before it reaches [inference]. *)
Definition question_header : list ui_event :=
  [UiSubheader (u"問題"); UiMarkdown (u"---"); UiSpinner (u"AI 正在思考中...")].

Module Scenarios.

Definition KeyboardInterrupt : exn := mk_exn "KeyboardInterrupt" false [].

(** Generation is interrupted from the keyboard. *)
Definition world_interrupt : World :=
  {| cuda_is_available := false;
     model_from_pretrained := model_from_pretrained Samples.world_ok;
     processor_from_pretrained := processor_from_pretrained Samples.world_ok;
     requests_get := requests_get Samples.world_ok;
     Image_open := Image_open Samples.world_ok;
     processor_call := processor_call Samples.world_ok;
     batch_to_device := batch_to_device Samples.world_ok;
     batch_to_dtype := batch_to_dtype Samples.world_ok;
     model_generate := fun _ _ _ => inl KeyboardInterrupt;
     processor_decode := processor_decode Samples.world_ok;
     duration := duration Samples.world_ok |}.

(** Every call returns at once. *)
Definition world_instant : World :=
  {| cuda_is_available := false;
     model_from_pretrained := model_from_pretrained Samples.world_ok;
     processor_from_pretrained := processor_from_pretrained Samples.world_ok;
     requests_get := requests_get Samples.world_ok;
     Image_open := Image_open Samples.world_ok;
     processor_call := processor_call Samples.world_ok;
     batch_to_device := batch_to_device Samples.world_ok;
     batch_to_dtype := batch_to_dtype Samples.world_ok;
     model_generate := model_generate Samples.world_ok;
     processor_decode := processor_decode Samples.world_ok;
     duration := fun _ => 0%Z |}.

(** An uploaded file that is no image, with a question and a click on
    the ask button. *)
Definition ask_bad_upload : widgets :=
  mk_widgets false 0 (Some Samples.html_bytes) [] false None
    (u"What is this?") true.

(** A URL typed in, the fetch button not clicked, the ask button clicked. *)
Definition ask_url_without_fetch : widgets :=
  mk_widgets false 1 None Samples.example_url false None
    (u"What is this?") true.

(** Everything filled in, no button clicked. *)
Definition upload_without_ask : widgets :=
  mk_widgets false 0 (Some Samples.png_bytes) [] false None
    (u"What is this?") false.

(** A new browser session in a process whose cache already holds the
    model. *)
Definition fresh_with_cache : state :=
  mk_state (initial_session Samples.world_ok)
    (Some (Samples.the_model, Samples.the_processor, Cpu)) [] [] 0%Z true 0.

End Scenarios.

(** ** Reasoning about runs *)

Arguments lit : simpl never.
Arguments strip : simpl never.

Ltac unfold_monad :=
  unfold st_spinner, st, time_time in *;
  unfold bind, ret, raise, gets, modify, external, try_except, no_grad in *.

Section KeepsCount.

Variable w : World.

Lemma keeps_count_ret {A} (a : A) : keeps_count (ret a).
Proof. intro s. reflexivity. Qed.

Lemma keeps_count_raise {A} (e : exn) : keeps_count (@raise A e).
Proof. intro s. reflexivity. Qed.

Lemma keeps_count_gets {A} (f : state -> A) : keeps_count (gets f).
Proof. intro s. reflexivity. Qed.

Lemma keeps_count_st (e : ui_event) : keeps_count (st e).
Proof. intro s. reflexivity. Qed.

Lemma keeps_count_external {A} (c : call) (r : exn + A) :
  keeps_count (external w c r).
Proof. intro s. unfold external. destruct r; reflexivity. Qed.

Lemma keeps_count_bind {A B} (c : M A) (k : A -> M B) :
  keeps_count c -> (forall a, keeps_count (k a)) -> keeps_count (bind c k).
Proof.
  intros Hc Hk s. unfold bind.
  specialize (Hc s). destruct (c s) as [[a | e] s1]; simpl in *.
  - rewrite Hk. exact Hc.
  - exact Hc.
Qed.

Lemma keeps_count_try_except {A} (body : M A) (handler : exn -> M A) :
  keeps_count body -> (forall e, keeps_count (handler e)) ->
  keeps_count (try_except body handler).
Proof.
  intros Hb Hh s. unfold try_except.
  specialize (Hb s). destruct (body s) as [[a | e] s1]; simpl in *.
  - exact Hb.
  - destruct (exn_is_Exception e); simpl.
    + rewrite Hh. exact Hb.
    + exact Hb.
Qed.

Lemma keeps_count_with_session (ss : session_state) :
  keeps_count (modify (with_session ss)).
Proof. intro s. reflexivity. Qed.

Lemma keeps_count_with_cache (c : option (model * processor * device)) :
  keeps_count (modify (with_cache c)).
Proof. intro s. reflexivity. Qed.

Create HintDb count.

#[local] Hint Resolve keeps_count_ret keeps_count_raise keeps_count_gets
  keeps_count_st keeps_count_external keeps_count_with_session
  keeps_count_with_cache : count.

Ltac count_step :=
  match goal with
  | |- keeps_count (bind _ _) => apply keeps_count_bind; [ | intro ]
  | |- keeps_count (try_except _ _) =>
      apply keeps_count_try_except; [ | intro ]
  | |- keeps_count (st_spinner _ _) => unfold st_spinner
  | |- keeps_count (match ?x with _ => _ end) => destruct x
  | |- keeps_count (if ?b then _ else _) => destruct b
  | |- _ => solve [ auto with count ]
  end.

Lemma keeps_count_raise_for_status (r : response) :
  keeps_count (raise_for_status r).
Proof. unfold raise_for_status. repeat count_step. Qed.

Lemma keeps_count_load_model : keeps_count (load_model w).
Proof.
  unfold load_model, cache_resource, load_model_body. repeat count_step.
Qed.

Lemma keeps_count_load_image_from_url (url : str) :
  keeps_count (load_image_from_url w url).
Proof.
  unfold load_image_from_url.
  repeat (count_step || apply keeps_count_raise_for_status).
Qed.

Lemma keeps_count_sidebar (ui : widgets) : keeps_count (sidebar w ui).
Proof.
  unfold sidebar. repeat (count_step || apply keeps_count_load_model).
Qed.

Lemma keeps_count_image_column (ui : widgets) :
  keeps_count (image_column w ui).
Proof.
  unfold image_column. cbv zeta.
  repeat (count_step || apply keeps_count_load_image_from_url).
Qed.

Lemma keeps_count_before_question (ui : widgets) :
  keeps_count (before_question w ui).
Proof.
  unfold before_question.
  repeat (count_step || apply keeps_count_sidebar
          || apply keeps_count_image_column).
Qed.

Lemma keeps_count_no_grad {A} (body : M A) :
  keeps_count body -> keeps_count (no_grad body).
Proof.
  intros Hb s. unfold no_grad.
  specialize (Hb (with_grad false s)).
  destruct (body (with_grad false s)) as [r s1]. exact Hb.
Qed.

Lemma keeps_count_inference_steps
    (m : model) (p : option processor) (img : image) (text : str)
    (d : device) :
  keeps_count (inference_steps w m p img text d).
Proof.
  unfold inference_steps, time_time.
  repeat (count_step || apply keeps_count_no_grad).
Qed.

(** Each run of [inference] adds exactly one to the counter. *)
Lemma inference_counts_once
    (m : model) (p : option processor) (img : image) (text : str)
    (d : device) (s : state) :
  inference_calls (snd (inference w m p img text d s))
  = S (inference_calls s).
Proof.
  unfold inference. unfold bind at 1. unfold modify.
  pose proof (keeps_count_try_except
                (inference_steps w m p img text d)
                (fun e => ret (u"錯誤: " ++ exn_str e, None))
                (keeps_count_inference_steps m p img text d)
                (fun e => keeps_count_ret _) (entered_inference s)) as H.
  exact H.
Qed.

End KeepsCount.

(** [main] is its first part followed by the question column. *)
Lemma main_split (w : World) (ui : widgets) (s : state) :
  main w ui s =
  match before_question w ui s with
  | (Ok image, s1) => question_column w ui image s1
  | (Raise e, s1) => (Raise e, s1)
  end.
Proof.
  unfold main, before_question, bind.
  destruct (st (UiTitle _) s) as [[[] | e] s0]; [ | reflexivity ].
  destruct (st (UiMarkdown _) s0) as [[[] | e] s0']; [ | reflexivity ].
  destruct (sidebar w ui s0') as [[[] | e] s1]; [ | reflexivity ].
  destruct (image_column w ui s1) as [[image | e] s2]; reflexivity.
Qed.

(** ** Concrete runs *)

Example lit_decodes_utf8 : u"上傳 URL" = [19978; 20659; 32; 85; 82; 76]%N.
Proof. reflexivity. Qed.

Example strip_removes_unicode_space : strip (u"  hi 　") = u"hi".
Proof. reflexivity. Qed.

Example radio_third_label : st_radio radio_options 2 = u"拍攝照片".
Proof. reflexivity. Qed.

Example status_404_message :
  http_error_msg (mk_response 404 (u"Not Found") (u"http://a/b") (inl IndexError))
  = u"404 Client Error: Not Found for url: http://a/b".
Proof. reflexivity. Qed.

Example first_run_warns :
  rendered (snd (main Samples.world_ok Samples.no_input Samples.fresh))
  = [UiTitle (u"PaliGemma Vision Question Answering");
     UiMarkdown (u"用 AI 詢問圖片中的任何問題 | Ask AI anything about images");
     UiHeader (u"設定");
     UiInfo (u"使用設備: cpu");
     UiWarning (u"請先點擊上方按鈕載入模型");
     UiSubheader (u"圖片來源");
     UiSubheader (u"問題");
     UiMarkdown (u"---")].
Proof. reflexivity. Qed.

Example fetch_url_gives_rgb :
  fst (image_column Samples.world_ok Samples.fetch_url Samples.fresh)
  = Ok (Some (mk_image ModeRGB 224 224)).
Proof. reflexivity. Qed.

Example take_photo_is_told_to_select_an_image :
  fst (main Samples.world_ok Samples.take_photo Samples.loaded) = Ok tt
  /\ last (rendered (snd (main Samples.world_ok Samples.take_photo
                            Samples.loaded)))
          (UiCode [])
     = UiError (u"請先選擇一張圖片!").
Proof. split; reflexivity. Qed.

Example upload_and_ask :
  last (rendered (snd (main Samples.world_ok
                         (Samples.ask_upload (u"What color?")) Samples.loaded)))
       (UiCode [])
  = UiCode (u"What color?red").
Proof. reflexivity. Qed.

(** ** Image acquisition *)

(** C1.  With the third image source selected ("拍攝照片", as the radio
    offers it) and a camera picture supplied, the image column ends with
    [image = None]: the branch of line 142 compares against "📷 拍攝照片",
    which the radio never returns, so the picture is never opened and no
    canonical image is produced. *)
Theorem camera_capture_produces_no_image
    (w : World) (load_model_clicked : bool) (upload : option bytes)
    (url : str) (load_image_clicked : bool) (picture : bytes)
    (question : str) (ask_clicked : bool) (s : state) :
  image_column w
    (mk_widgets load_model_clicked 2 upload url load_image_clicked
       (Some picture) question ask_clicked) s
  = (Ok None, render (UiSubheader (u"圖片來源")) s).
Proof. reflexivity. Qed.

(** ** The validation gate *)

(** C3.  When the part of [main] before the question column has run and
    left the session without a model, or the local [image] at [None], or
    when the question is empty after [strip()], the whole run of [main]
    ends with the count of [inference] calls unchanged: [inference] is
    not entered. *)
Theorem gate_blocks_inference
    (w : World) (ui : widgets) (s s1 : state) (image : option image) :
  before_question w ui s = (Ok image, s1) ->
  ss_model (session s1) = None \/ image = None
    \/ strip (question_input ui) = [] ->
  inference_calls (snd (main w ui s)) = inference_calls s.
Proof.
  intros Hrun Hgate.
  pose proof (keeps_count_before_question w ui s) as Hcount.
  rewrite main_split, Hrun. rewrite Hrun in Hcount. simpl in Hcount.
  rewrite <- Hcount.
  unfold question_column. unfold_monad.
  destruct (ask_button ui); [ | reflexivity ]. cbn.
  destruct (ss_model (session s1)) as [m | ] eqn:Hm; [ | reflexivity ].
  destruct image as [img | ]; [ | reflexivity ].
  destruct Hgate as [H | [H | H]]; try discriminate.
  rewrite H. reflexivity.
Qed.

Lemma gate_blocks_inference_witness :
  before_question Samples.world_ok (Samples.ask_upload (u"  　 "))
    Samples.loaded
  = (Ok (Some (mk_image ModeRGB 224 224)),
     snd (before_question Samples.world_ok (Samples.ask_upload (u"  　 "))
            Samples.loaded))
  /\ strip (question_input (Samples.ask_upload (u"  　 "))) = []
  /\ inference_calls
       (snd (main Samples.world_ok (Samples.ask_upload (u"  　 "))
               Samples.loaded))
     = 0.
Proof.
  split; [ reflexivity | ]. split; [ reflexivity | ].
  apply (gate_blocks_inference Samples.world_ok
           (Samples.ask_upload (u"  　 ")) Samples.loaded
           (snd (before_question Samples.world_ok
                   (Samples.ask_upload (u"  　 ")) Samples.loaded))
           (Some (mk_image ModeRGB 224 224))).
  - reflexivity.
  - right. right. reflexivity.
Defined.

(** ** Fetching an image from a URL *)

Lemma http_error_msg_error_status (r : response) :
  (400 <= status_code r < 600)%N -> str_truthy (http_error_msg r) = true.
Proof.
  intros [Hlo Hhi]. unfold http_error_msg. cbv zeta.
  destruct ((400 <=? status_code r) && (status_code r <? 500))%N eqn:H4.
  - destruct (str_of_N (status_code r)); reflexivity.
  - destruct ((500 <=? status_code r) && (status_code r <? 600))%N eqn:H5.
    + destruct (str_of_N (status_code r)); reflexivity.
    + apply andb_false_iff in H4, H5.
      rewrite !N.leb_gt, !N.ltb_ge in *. lia.
Qed.

Lemma http_error_msg_other_status (r : response) :
  ~ (400 <= status_code r < 600)%N -> http_error_msg r = [].
Proof.
  intros H. unfold http_error_msg. cbv zeta.
  destruct ((400 <=? status_code r) && (status_code r <? 500))%N eqn:H4.
  - apply andb_true_iff in H4. rewrite N.leb_le, N.ltb_lt in H4. lia.
  - destruct ((500 <=? status_code r) && (status_code r <? 600))%N eqn:H5.
    + apply andb_true_iff in H5. rewrite N.leb_le, N.ltb_lt in H5. lia.
    + reflexivity.
Qed.

(** Every failure ends in the handler: an error is rendered and [None]
    is returned. *)
Lemma load_image_from_url_failure
    (w : World) (url : str) (k : failure_kind) (e : exn) (s : state) :
  url_failure w url k e ->
  exn_is_Exception e = true ->
  exists s',
    load_image_from_url w url s = (Ok None, s')
    /\ rendered s' = rendered s ++ [UiError (u"無法從 URL 載入圖片: " ++ exn_str e)].
Proof.
  intros Hfail Hexc. unfold load_image_from_url, raise_for_status.
  destruct Hfail as [e Hget | r Hget Hst | r e Hget Hst Hbody
                    | r b e Hget Hst Hbody Hopen];
    unfold_monad; rewrite Hget; cbn.
  - rewrite Hexc. eexists. split; reflexivity.
  - rewrite (http_error_msg_error_status r Hst). cbn.
    eexists. split; reflexivity.
  - rewrite (http_error_msg_other_status r Hst). cbn.
    rewrite Hbody, Hexc. eexists. split; reflexivity.
  - rewrite (http_error_msg_other_status r Hst). cbn.
    rewrite Hbody, Hopen, Hexc. eexists. split; reflexivity.
Qed.

(** C2 (as the code has it).  Whatever the kind of the failure, network
    or decode, [load_image_from_url] raises nothing, returns [None] and
    renders one error whose text is "無法從 URL 載入圖片: " followed by
    [str(e)]; the returned value carries no failure kind. *)
Theorem url_failure_returns_None
    (w : World) (url : str) (k : failure_kind) (e : exn) (s : state) :
  url_failure w url k e ->
  exn_is_Exception e = true ->
  fst (load_image_from_url w url s) = Ok None
  /\ rendered (snd (load_image_from_url w url s))
     = rendered s ++ [UiError (u"無法從 URL 載入圖片: " ++ exn_str e)].
Proof.
  intros Hfail Hexc.
  destruct (load_image_from_url_failure w url k e s Hfail Hexc)
    as [s' [Hrun Hui]].
  rewrite Hrun. split; [ reflexivity | exact Hui ].
Qed.

Lemma url_failure_returns_None_witness :
  fst (load_image_from_url Samples.world_not_an_image Samples.example_url
         Samples.fresh) = Ok None
  /\ rendered (snd (load_image_from_url Samples.world_not_an_image
                      Samples.example_url Samples.fresh))
     = rendered Samples.fresh
       ++ [UiError (u"無法從 URL 載入圖片: "
                    ++ exn_str Samples.UnidentifiedImageError)].
Proof.
  apply (url_failure_returns_None Samples.world_not_an_image
           Samples.example_url DecodeError Samples.UnidentifiedImageError
           Samples.fresh).
  - apply (not_an_image _ _
             (mk_response 200 (u"OK") Samples.example_url
                (inr Samples.html_bytes))
             Samples.html_bytes).
    + reflexivity.
    + simpl. lia.
    + reflexivity.
    + reflexivity.
  - reflexivity.
Defined.

(** C2 (as stated) fails: a timeout, which is a network failure, and a
    body that is no image, which is a decode failure, give the caller the
    same value, so no function of the returned value tells the two kinds
    apart. *)
Lemma failure_kinds_not_distinguishable :
  url_failure Samples.world_timeout Samples.example_url NetworkError
    Samples.ConnectTimeout
  /\ url_failure Samples.world_not_an_image Samples.example_url DecodeError
       Samples.UnidentifiedImageError
  /\ fst (load_image_from_url Samples.world_timeout Samples.example_url
            Samples.fresh)
     = fst (load_image_from_url Samples.world_not_an_image
              Samples.example_url Samples.fresh)
  /\ ~ (exists classify : outcome (option image) -> failure_kind,
          forall w url k e s,
            url_failure w url k e ->
            exn_is_Exception e = true ->
            classify (fst (load_image_from_url w url s)) = k).
Proof.
  assert (Hnet : url_failure Samples.world_timeout Samples.example_url
                   NetworkError Samples.ConnectTimeout).
  { apply request_raises. reflexivity. }
  assert (Hdec : url_failure Samples.world_not_an_image Samples.example_url
                   DecodeError Samples.UnidentifiedImageError).
  { apply (not_an_image _ _
             (mk_response 200 (u"OK") Samples.example_url
                (inr Samples.html_bytes))
             Samples.html_bytes); try reflexivity.
    simpl. lia. }
  repeat split; try assumption.
  intros [classify Hclassify].
  pose proof (Hclassify _ _ _ _ Samples.fresh Hnet eq_refl) as H1.
  pose proof (Hclassify _ _ _ _ Samples.fresh Hdec eq_refl) as H2.
  vm_compute in H1, H2. congruence.
Qed.

(** C7 (as the code has it).  The fetch is one GET of the URL, streamed,
    with a timeout of 10.  When that request raises (timeout, connection
    failure), when the answer has a status in 400..599, or when reading
    the body raises, nothing else is called (no image is decoded), the
    error is rendered and [None] is returned. *)
Theorem network_failure_produces_no_image
    (w : World) (url : str) (e : exn) (s : state) :
  url_failure w url NetworkError e ->
  exn_is_Exception e = true ->
  load_image_from_url w url s
  = (Ok None,
     render (UiError (u"無法從 URL 載入圖片: " ++ exn_str e))
       (called (Call_requests_get url true 10)
          (duration w (Call_requests_get url true 10)) s)).
Proof.
  intros Hfail Hexc. unfold load_image_from_url, raise_for_status.
  inversion Hfail as [e' Hget | r Hget Hst | r e' Hget Hst Hbody | ]; subst;
    unfold_monad; rewrite Hget; cbn.
  - rewrite Hexc. reflexivity.
  - rewrite (http_error_msg_error_status r Hst). reflexivity.
  - rewrite (http_error_msg_other_status r Hst). cbn.
    rewrite Hbody, Hexc. reflexivity.
Qed.

Lemma network_failure_produces_no_image_witness :
  load_image_from_url (Samples.world_with_status 404) Samples.example_url
    Samples.fresh
  = (Ok None,
     render
       (UiError
          (u"無法從 URL 載入圖片: "
           ++ exn_str
                (HTTPError
                   (http_error_msg
                      (mk_response 404 (u"Reason") Samples.example_url
                         (inr Samples.png_bytes))))))
       (called (Call_requests_get Samples.example_url true 10)
          (duration (Samples.world_with_status 404)
             (Call_requests_get Samples.example_url true 10))
          Samples.fresh)).
Proof.
  apply (network_failure_produces_no_image (Samples.world_with_status 404)
           Samples.example_url
           (HTTPError
              (http_error_msg
                 (mk_response 404 (u"Reason") Samples.example_url
                    (inr Samples.png_bytes))))
           Samples.fresh).
  - apply error_status.
    + reflexivity.
    + simpl. lia.
  - reflexivity.
Defined.

(** C7 (as stated) fails: status 300 is not a 2xx status, yet
    [raise_for_status] lets it pass, and a body that decodes gives an
    image. *)
Lemma status_300_yields_image :
  requests_get (Samples.world_with_status 300) Samples.example_url true 10
  = inr (mk_response 300 (u"Reason") Samples.example_url
           (inr Samples.png_bytes))
  /\ ~ (200 <= 300 < 300)%N
  /\ fst (load_image_from_url (Samples.world_with_status 300)
            Samples.example_url Samples.fresh)
     = Ok (Some (mk_image ModeRGB 224 224)).
Proof.
  split; [ reflexivity | ]. split; [ lia | reflexivity ].
Qed.

(** The image of a successful fetch is RGB. *)
Lemma load_image_from_url_rgb
    (w : World) (url : str) (s s' : state) (img : image) :
  load_image_from_url w url s = (Ok (Some img), s') ->
  im_mode img = ModeRGB.
Proof.
  unfold load_image_from_url, raise_for_status. unfold_monad. cbn.
  destruct (requests_get w url true 10) as [e | r].
  - destruct (exn_is_Exception e); intros H; inversion H.
  - destruct (str_truthy (http_error_msg r)); cbn.
    + intros H; inversion H.
    + destruct (content r) as [e | b]; cbn.
      * destruct (exn_is_Exception e); intros H; inversion H.
      * destruct (Image_open w b) as [e | i]; cbn.
        -- destruct (exn_is_Exception e); intros H; inversion H.
        -- intros H; inversion H. reflexivity.
Qed.

(** C8.  Whenever the image column leaves an image in [image], from
    whichever source and whatever the mode it was decoded in, that image
    is in mode RGB and has three channels. *)
Theorem acquired_image_is_rgb
    (w : World) (ui : widgets) (s s' : state) (img : image) :
  image_column w ui s = (Ok (Some img), s') ->
  im_mode img = ModeRGB /\ channels img = 3.
Proof.
  intros Hrun.
  assert (Hmode : im_mode img = ModeRGB).
  { revert Hrun. unfold image_column. cbv zeta.
    set (source := st_radio radio_options (image_source_index ui)).
    unfold bind at 1. unfold st at 1. unfold modify at 1.
    unfold bind at 1.
    destruct (str_eqb source (u"上傳本機檔案")).
    - destruct (uploaded_file ui) as [f | ].
      + unfold_monad. cbn.
        destruct (Image_open w f) as [e | i]; cbn; intros H; inversion H.
        reflexivity.
      + unfold_monad. cbn. intros H; inversion H.
    - destruct (str_eqb source (u"輸入圖片 URL")).
      + destruct (str_truthy (url_input ui) && load_image_button ui).
        * destruct (load_image_from_url w (url_input ui) _)
            as [[[i | ] | e] s1] eqn:Hurl;
            unfold_monad; cbn; intros H; inversion H; subst.
          eapply load_image_from_url_rgb. exact Hurl.
        * unfold_monad. cbn. intros H; inversion H.
      + destruct (str_eqb source (u"📷 拍攝照片")).
        * destruct (camera_picture ui) as [f | ].
          -- unfold_monad. cbn.
             destruct (Image_open w f) as [e | i]; cbn; intros H; inversion H.
             reflexivity.
          -- unfold_monad. cbn. intros H; inversion H.
        * unfold_monad. cbn. intros H; inversion H. }
  split; [ exact Hmode | ]. unfold channels. rewrite Hmode. reflexivity.
Qed.

Lemma acquired_image_is_rgb_witness :
  Image_open Samples.world_ok Samples.png_bytes
  = inr (mk_image ModeRGBA 224 224)
  /\ image_column Samples.world_ok
       (Samples.ask_upload (u"What color is this?")) Samples.loaded
     = (Ok (Some (mk_image ModeRGB 224 224)),
        snd (image_column Samples.world_ok
               (Samples.ask_upload (u"What color is this?")) Samples.loaded))
  /\ im_mode (mk_image ModeRGB 224 224) = ModeRGB
  /\ channels (mk_image ModeRGB 224 224) = 3.
Proof.
  split; [ reflexivity | ]. split; [ reflexivity | ].
  apply (acquired_image_is_rgb Samples.world_ok
           (Samples.ask_upload (u"What color is this?")) Samples.loaded
           (snd (image_column Samples.world_ok
                   (Samples.ask_upload (u"What color is this?"))
                   Samples.loaded))).
  reflexivity.
Defined.

(** ** The inference pipeline *)

Section Pipeline.

Variable w : World.
Variables (m : model) (p : processor) (img : image) (text : str) (d : device).

(** The run of [inference] when every step succeeds. *)
Lemma inference_success
    (b0 b1 b2 : batch) (seq : list N) (rest : list (list N)) (txt : str)
    (s : state) :
  run_ok w m p img text d b0 b1 b2 seq rest txt ->
  exists s',
    inference w m (Some p) img text d s
    = (Ok (txt, Some (duration w (Call_generate m b2 496))), s')
    /\ trace s'
       = trace s
         ++ [mk_entry (Call_processor p text img "longest" true "pt")
               (grad_enabled s);
             mk_entry (Call_to_device b0 d) (grad_enabled s);
             mk_entry (Call_to_dtype b1 (model_dtype m)) (grad_enabled s);
             mk_entry (Call_generate m b2 496) false;
             mk_entry (Call_decode p seq true) (grad_enabled s)]
    /\ clock s'
       = (clock s
          + duration w (Call_processor p text img "longest" true "pt")
          + duration w (Call_to_device b0 d)
          + duration w (Call_to_dtype b1 (model_dtype m))
          + duration w (Call_generate m b2 496)
          + duration w (Call_decode p seq true))%Z
    /\ grad_enabled s' = grad_enabled s
    /\ inference_calls s' = S (inference_calls s).
Proof.
  intros [Henc Hdev Hdt Hgen Hdec].
  unfold inference, inference_steps. unfold_monad. cbn.
  rewrite Henc. cbn. rewrite Hdev. cbn. rewrite Hdt. cbn.
  rewrite Hgen. cbn. rewrite Hdec. cbn.
  eexists. split; [ | split; [ | split; [ | split ] ] ].
  - f_equal. f_equal. f_equal. f_equal. lia.
  - cbn. repeat rewrite <- app_assoc. reflexivity.
  - reflexivity.
  - reflexivity.
  - reflexivity.
Qed.

(** Whatever happens later, the first external call of [inference] is the
    processor's, on the text and image it was given. *)
Lemma inference_first_call (s : state) :
  exists rest,
    trace (snd (inference w m (Some p) img text d s))
    = trace s ++ mk_entry (Call_processor p text img "longest" true "pt") (grad_enabled s) :: rest.
Proof.
  unfold inference, inference_steps. unfold_monad. cbn.
  destruct (processor_call w p text img "longest" true "pt") as [e | b0]; cbn.
  { destruct (exn_is_Exception e); cbn; eexists; reflexivity. }
  destruct (batch_to_device w b0 d) as [e | b1]; cbn.
  { destruct (exn_is_Exception e); cbn; repeat rewrite <- app_assoc;
      eexists; reflexivity. }
  destruct (batch_to_dtype w b1 (model_dtype m)) as [e | b2]; cbn.
  { destruct (exn_is_Exception e); cbn; repeat rewrite <- app_assoc;
      eexists; reflexivity. }
  destruct (model_generate w m b2 496) as [e | [ | seq rest]]; cbn.
  { destruct (exn_is_Exception e); cbn; repeat rewrite <- app_assoc;
      eexists; reflexivity. }
  { repeat rewrite <- app_assoc. eexists; reflexivity. }
  destruct (processor_decode w p seq true) as [e | txt]; cbn.
  { destruct (exn_is_Exception e); cbn; repeat rewrite <- app_assoc;
      eexists; reflexivity. }
  repeat rewrite <- app_assoc. eexists; reflexivity.
Qed.

End Pipeline.

(** C4 (as the code has it).  When a step of [inference] (encoding,
    transfer to the device or to the model's dtype, generation, taking the
    first sequence, decoding) raises an exception [e] deriving from
    [Exception], [inference] raises nothing: it returns "錯誤: " followed by
    [str(e)] in the answer slot and [None] as the latency. *)
Theorem inference_catches_step_failure
    (w : World) (m : model) (p : processor) (img : image) (text : str)
    (d : device) (e : exn) (s : state) :
  step_failure w m p img text d e ->
  exn_is_Exception e = true ->
  exists s',
    inference w m (Some p) img text d s
    = (Ok (u"錯誤: " ++ exn_str e, None), s').
Proof.
  intros Hfail Hexc. unfold inference, inference_steps. unfold_monad. cbn.
  destruct Hfail as
    [e Henc | b0 e Henc Hdev | b0 b1 e Henc Hdev Hdt
    | b0 b1 b2 e Henc Hdev Hdt Hgen | b0 b1 b2 Henc Hdev Hdt Hgen
    | b0 b1 b2 seq rest e Henc Hdev Hdt Hgen Hdec];
    rewrite Henc; cbn;
    try (rewrite Hdev; cbn); try (rewrite Hdt; cbn);
    try (rewrite Hgen; cbn); try (rewrite Hdec; cbn);
    try rewrite Hexc; eexists; reflexivity.
Qed.

Lemma inference_catches_step_failure_witness :
  exists s',
    inference Samples.world_oom Samples.the_model (Some Samples.the_processor)
      Samples.rgba_image (u"What color is this?") Cpu Samples.loaded
    = (Ok (u"錯誤: " ++ exn_str Samples.OutOfMemoryError, None), s').
Proof.
  apply (inference_catches_step_failure Samples.world_oom Samples.the_model
           Samples.the_processor Samples.rgba_image
           (u"What color is this?") Cpu Samples.OutOfMemoryError
           Samples.loaded).
  - apply (generation_raises _ _ _ _ _ _
             (mk_batch (u"What color is this?") Cpu Float32)
             (mk_batch (u"What color is this?") Cpu Float32)
             (mk_batch (u"What color is this?") Cpu Bfloat16));
      reflexivity.
  - reflexivity.
Defined.

(** C4 (as stated) fails: an exception is not always caught.  When
    generation is interrupted from the keyboard, the step raises
    [KeyboardInterrupt], which does not derive from [Exception]; the
    handler of line 79 does not apply, no error-message result is returned
    and the exception propagates out of [inference]. *)
Lemma keyboard_interrupt_leaves_inference :
  step_failure Scenarios.world_interrupt Samples.the_model
    Samples.the_processor Samples.rgba_image (u"hi") Cpu
    Scenarios.KeyboardInterrupt
  /\ fst (inference Scenarios.world_interrupt Samples.the_model
            (Some Samples.the_processor) Samples.rgba_image (u"hi") Cpu
            Samples.loaded)
     = Raise Scenarios.KeyboardInterrupt
  /\ ~ (exists answer,
          fst (inference Scenarios.world_interrupt Samples.the_model
                 (Some Samples.the_processor) Samples.rgba_image (u"hi") Cpu
                 Samples.loaded)
          = Ok (answer, None)).
Proof.
  split; [ | split ].
  - apply (generation_raises _ _ _ _ _ _
             (mk_batch (u"hi") Cpu Float32) (mk_batch (u"hi") Cpu Float32)
             (mk_batch (u"hi") Cpu Bfloat16));
      reflexivity.
  - reflexivity.
  - intros [answer H]. vm_compute in H. discriminate H.
Qed.

(** C6.  When every step succeeds, the latency [inference] returns is the
    time the [generate] call took and nothing more, although the clock
    has also advanced by the time of the encoding, of the two transfers
    and of the decoding. *)
Theorem latency_is_generation_time
    (w : World) (m : model) (p : processor) (img : image) (text : str)
    (d : device) (b0 b1 b2 : batch) (seq : list N) (rest : list (list N))
    (txt : str) (s : state) :
  run_ok w m p img text d b0 b1 b2 seq rest txt ->
  exists s',
    inference w m (Some p) img text d s
    = (Ok (txt, Some (duration w (Call_generate m b2 496))), s')
    /\ (clock s' - clock s
        = duration w (Call_processor p text img "longest" true "pt")
          + duration w (Call_to_device b0 d)
          + duration w (Call_to_dtype b1 (model_dtype m))
          + duration w (Call_generate m b2 496)
          + duration w (Call_decode p seq true))%Z.
Proof.
  intros Hok.
  destruct (inference_success w m p img text d b0 b1 b2 seq rest txt s Hok)
    as [s' [Hrun [_ [Hclock _]]]].
  exists s'. split; [ exact Hrun | ]. rewrite Hclock. cbv zeta. lia.
Qed.

Lemma sample_run_ok :
  run_ok Samples.world_ok Samples.the_model Samples.the_processor
    Samples.rgba_image (u"hi") Cpu
    (mk_batch (u"hi") Cpu Float32) (mk_batch (u"hi") Cpu Float32)
    (mk_batch (u"hi") Cpu Bfloat16) (u"hired") [] (u"hired").
Proof. split; reflexivity. Qed.

Lemma latency_is_generation_time_witness :
  exists s',
    inference Samples.world_ok Samples.the_model (Some Samples.the_processor)
      Samples.rgba_image (u"hi") Cpu Samples.loaded
    = (Ok (u"hired",
           Some (duration Samples.world_ok
                   (Call_generate Samples.the_model
                      (mk_batch (u"hi") Cpu Bfloat16) 496))), s')
    /\ (clock s' - clock Samples.loaded
        = duration Samples.world_ok
            (Call_processor Samples.the_processor (u"hi") Samples.rgba_image
               "longest" true "pt")
          + duration Samples.world_ok
              (Call_to_device (mk_batch (u"hi") Cpu Float32) Cpu)
          + duration Samples.world_ok
              (Call_to_dtype (mk_batch (u"hi") Cpu Float32)
                 (model_dtype Samples.the_model))
          + duration Samples.world_ok
              (Call_generate Samples.the_model
                 (mk_batch (u"hi") Cpu Bfloat16) 496)
          + duration Samples.world_ok
              (Call_decode Samples.the_processor (u"hired") true))%Z.
Proof.
  apply (latency_is_generation_time Samples.world_ok Samples.the_model
           Samples.the_processor Samples.rgba_image (u"hi") Cpu
           (mk_batch (u"hi") Cpu Float32) (mk_batch (u"hi") Cpu Float32)
           (mk_batch (u"hi") Cpu Bfloat16) (u"hired") [] (u"hired")
           Samples.loaded).
  exact sample_run_ok.
Defined.

(** C9.  When every step succeeds, [inference] has made exactly these
    calls, in this order: the processor, the two transfers, [generate] on
    the transferred batch with [max_length = 496] and gradient tracking
    off, and [decode] of the first generated sequence with
    [skip_special_tokens = True]; the decoded text is the answer, and the
    gradient mode is afterwards what it was before.  If the model keeps
    every sequence within the [max_length] it is given, the decoded
    sequence has at most 496 tokens. *)
Theorem generation_call_parameters
    (w : World) (m : model) (p : processor) (img : image) (text : str)
    (d : device) (b0 b1 b2 : batch) (seq : list N) (rest : list (list N))
    (txt : str) (s : state) :
  run_ok w m p img text d b0 b1 b2 seq rest txt ->
  exists s',
    inference w m (Some p) img text d s
    = (Ok (txt, Some (duration w (Call_generate m b2 496))), s')
    /\ trace s'
       = trace s
         ++ [mk_entry (Call_processor p text img "longest" true "pt")
               (grad_enabled s);
             mk_entry (Call_to_device b0 d) (grad_enabled s);
             mk_entry (Call_to_dtype b1 (model_dtype m)) (grad_enabled s);
             mk_entry (Call_generate m b2 496) false;
             mk_entry (Call_decode p seq true) (grad_enabled s)]
    /\ grad_enabled s' = grad_enabled s
    /\ ((forall inputs n out sq,
           model_generate w m inputs n = inr out -> In sq out ->
           (N.of_nat (List.length sq) <= n)%N) ->
        List.length seq <= 496).
Proof.
  intros Hok.
  destruct (inference_success w m p img text d b0 b1 b2 seq rest txt s Hok)
    as [s' [Hrun [Htrace [_ [Hgrad _]]]]].
  exists s'. repeat split; try assumption.
  intros Hcap.
  pose proof (Hcap b2 496%N (seq :: rest) seq
                (ok_generate _ _ _ _ _ _ _ _ _ _ _ _ Hok)
                (or_introl eq_refl)) as Hlen.
  lia.
Qed.

Lemma generation_call_parameters_witness :
  exists s',
    inference Samples.world_ok Samples.the_model (Some Samples.the_processor)
      Samples.rgba_image (u"hi") Cpu Samples.loaded
    = (Ok (u"hired",
           Some (duration Samples.world_ok
                   (Call_generate Samples.the_model
                      (mk_batch (u"hi") Cpu Bfloat16) 496))), s')
    /\ trace s'
       = trace Samples.loaded
         ++ [mk_entry
               (Call_processor Samples.the_processor (u"hi")
                  Samples.rgba_image "longest" true "pt") true;
             mk_entry (Call_to_device (mk_batch (u"hi") Cpu Float32) Cpu) true;
             mk_entry (Call_to_dtype (mk_batch (u"hi") Cpu Float32) Bfloat16)
               true;
             mk_entry
               (Call_generate Samples.the_model
                  (mk_batch (u"hi") Cpu Bfloat16) 496) false;
             mk_entry (Call_decode Samples.the_processor (u"hired") true) true]
    /\ grad_enabled s' = true
    /\ List.length (u"hired") <= 496.
Proof.
  destruct (generation_call_parameters Samples.world_ok Samples.the_model
              Samples.the_processor Samples.rgba_image (u"hi") Cpu
              (mk_batch (u"hi") Cpu Float32) (mk_batch (u"hi") Cpu Float32)
              (mk_batch (u"hi") Cpu Bfloat16) (u"hired") [] (u"hired")
              Samples.loaded sample_run_ok)
    as [s' [Hrun [Htrace [Hgrad Hcap]]]].
  exists s'. repeat split; try assumption.
  apply Hcap. intros inputs n out sq Hgen Hin.
  simpl in Hgen. inversion Hgen; subst. destruct Hin as [Hsq | []]. subst.
  pose proof (firstn_le_length (N.to_nat n)
                (input_ids inputs ++ Samples.answer_tokens)).
  lia.
Defined.

(** ** Loading the model *)

(** C5.  When the load button is clicked, nothing is cached and the load
    fails with [e], the run of [main] ends by raising [e] (which Streamlit
    shows), [st.session_state] is what it was before the run, and nothing
    is stored in the cache. *)
Theorem failed_load_keeps_session
    (w : World) (ui : widgets) (s : state) (e : exn) :
  load_model_button ui = true ->
  cache s = None ->
  load_failure w e ->
  fst (main w ui s) = Raise e
  /\ session (snd (main w ui s)) = session s
  /\ cache (snd (main w ui s)) = None.
Proof.
  intros Hbutton Hcache Hfail.
  unfold main, sidebar, load_model, cache_resource, load_model_body.
  rewrite Hbutton. unfold_monad. cbn. rewrite Hcache.
  destruct Hfail as [e Hm | mdl e Hm Hp]; rewrite Hm; cbn.
  - repeat split; assumption.
  - rewrite Hp. cbn. repeat split; assumption.
Qed.

Lemma failed_load_keeps_session_witness :
  fst (main Samples.world_no_processor Samples.click_load_model Samples.fresh)
  = Raise Samples.OSError_weights
  /\ session (snd (main Samples.world_no_processor Samples.click_load_model
                     Samples.fresh))
     = session Samples.fresh
  /\ cache (snd (main Samples.world_no_processor Samples.click_load_model
                   Samples.fresh))
     = None.
Proof.
  apply (failed_load_keeps_session Samples.world_no_processor
           Samples.click_load_model Samples.fresh Samples.OSError_weights).
  - reflexivity.
  - reflexivity.
  - apply (processor_load_raises _ (mk_model model_id Bfloat16 Cpu));
      reflexivity.
Defined.

(** ** The question as the pipeline receives it *)

(** C10.  When the ask button is clicked with a model and a processor in
    the session, an image selected and a question that is not empty after
    [strip()], [main] enters [inference] once, and the first call made
    there hands the processor the question exactly as typed,
    [question_input ui], not its stripped form. *)
Theorem question_forwarded_untrimmed
    (w : World) (ui : widgets) (s s1 : state) (img : image) (m : model)
    (p : processor) :
  before_question w ui s = (Ok (Some img), s1) ->
  ask_button ui = true ->
  ss_model (session s1) = Some m ->
  ss_processor (session s1) = Some p ->
  strip (question_input ui) <> [] ->
  inference_calls (snd (main w ui s)) = S (inference_calls s)
  /\ exists rest,
       trace (snd (main w ui s))
       = trace s1
         ++ mk_entry
              (Call_processor p (question_input ui) img "longest" true "pt")
              (grad_enabled s1)
            :: rest.
Proof.
  intros Hrun Hask Hm Hp Hq.
  pose proof (keeps_count_before_question w ui s) as Hbefore.
  rewrite Hrun in Hbefore. cbn in Hbefore.
  rewrite main_split, Hrun. unfold question_column.
  rewrite Hask. unfold st_spinner, st, bind, gets, modify, ret. cbn.
  rewrite Hm.
  destruct (strip (question_input ui)) as [ | c q] eqn:Hstrip;
    [ congruence | ]. cbn. rewrite Hp.
  destruct (inference_first_call w m p img (question_input ui)
              (ss_device (session s1))
              (render (UiSpinner (u"AI 正在思考中..."))
                 (render (UiMarkdown (u"---"))
                    (render (UiSubheader (u"問題")) s1))))
    as [rest Hfirst].
  pose proof (inference_counts_once w m (Some p) img (question_input ui)
                (ss_device (session s1))
                (render (UiSpinner (u"AI 正在思考中..."))
                   (render (UiMarkdown (u"---"))
                      (render (UiSubheader (u"問題")) s1))))
    as Hcount.
  cbn in Hfirst, Hcount. rewrite Hbefore in Hcount.
  set (run := try_except _ _ _) in *.
  destruct run as [[r | e0] s2]; cbn in *.
  - destruct (snd r) as [t | ]; [ destruct (t =? 0)%Z | ]; cbn;
      (split; [ exact Hcount | exists rest; exact Hfirst ]).
  - split; [ exact Hcount | exists rest; exact Hfirst ].
Qed.

Lemma question_forwarded_untrimmed_witness :
  strip (question_input (Samples.ask_upload (u"  hi "))) = u"hi"
  /\ inference_calls
    (snd (main Samples.world_ok (Samples.ask_upload (u"  hi ")) Samples.loaded))
  = S (inference_calls Samples.loaded)
  /\ exists rest,
       trace (snd (main Samples.world_ok (Samples.ask_upload (u"  hi "))
                     Samples.loaded))
       = trace (snd (before_question Samples.world_ok
                       (Samples.ask_upload (u"  hi ")) Samples.loaded))
         ++ mk_entry
              (Call_processor Samples.the_processor
                 (question_input (Samples.ask_upload (u"  hi ")))
                 (convert ModeRGB Samples.rgba_image) "longest" true "pt")
              (grad_enabled
                 (snd (before_question Samples.world_ok
                         (Samples.ask_upload (u"  hi ")) Samples.loaded)))
            :: rest.
Proof.
  split; [ reflexivity | ].
  apply (question_forwarded_untrimmed Samples.world_ok
           (Samples.ask_upload (u"  hi ")) Samples.loaded
           (snd (before_question Samples.world_ok
                   (Samples.ask_upload (u"  hi ")) Samples.loaded))
           (convert ModeRGB Samples.rgba_image) Samples.the_model
           Samples.the_processor).
  - reflexivity.
  - reflexivity.
  - reflexivity.
  - reflexivity.
  - intro H. vm_compute in H. discriminate H.
Defined.

(** ** Frames: what a run leaves alone *)

Section Keeps.

Context {B : Type} (f : state -> B).

Hypothesis f_called : forall c d s, f (called c d s) = f s.
Hypothesis f_render : forall e s, f (render e s) = f s.
Hypothesis f_grad : forall g s, f (with_grad g s) = f s.
Hypothesis f_entered : forall s, f (entered_inference s) = f s.

Lemma keeps_ret {A} (a : A) : keeps f (ret a).
Proof. intro s. reflexivity. Qed.

Lemma keeps_raise {A} (e : exn) : keeps f (@raise A e).
Proof. intro s. reflexivity. Qed.

Lemma keeps_gets {A} (g : state -> A) : keeps f (gets g).
Proof. intro s. reflexivity. Qed.

Lemma keeps_st (e : ui_event) : keeps f (st e).
Proof. intro s. apply f_render. Qed.

Lemma keeps_entered : keeps f (modify entered_inference).
Proof. intro s. apply f_entered. Qed.

Lemma keeps_external {A} (w : World) (c : call) (r : exn + A) :
  keeps f (external w c r).
Proof. intro s. unfold external. destruct r; apply f_called. Qed.

Lemma keeps_bind {A C} (c : M A) (k : A -> M C) :
  keeps f c -> (forall a, keeps f (k a)) -> keeps f (bind c k).
Proof.
  intros Hc Hk s. unfold bind.
  specialize (Hc s). destruct (c s) as [[a | e] s1]; simpl in *.
  - rewrite Hk. exact Hc.
  - exact Hc.
Qed.

Lemma keeps_try_except {A} (body : M A) (handler : exn -> M A) :
  keeps f body -> (forall e, keeps f (handler e)) ->
  keeps f (try_except body handler).
Proof.
  intros Hb Hh s. unfold try_except.
  specialize (Hb s). destruct (body s) as [[a | e] s1]; simpl in *.
  - exact Hb.
  - destruct (exn_is_Exception e); simpl.
    + rewrite Hh. exact Hb.
    + exact Hb.
Qed.

Lemma keeps_no_grad {A} (body : M A) :
  keeps f body -> keeps f (no_grad body).
Proof.
  intros Hb s. unfold no_grad.
  specialize (Hb (with_grad false s)).
  destruct (body (with_grad false s)) as [r s1]. simpl in *.
  rewrite f_grad, Hb. apply f_grad.
Qed.

End Keeps.

(** Whatever its body does, [with torch.no_grad()] gives the gradient
    mode back as it found it. *)
Lemma keeps_grad_no_grad {A} (body : M A) : keeps grad_enabled (no_grad body).
Proof.
  intro s. unfold no_grad.
  destruct (body (with_grad false s)) as [r s1]. reflexivity.
Qed.

Ltac keeps_side := solve [ intros; reflexivity ].

Ltac keeps_step :=
  match goal with
  | |- keeps _ (bind _ _) => apply keeps_bind; [ | intro ]
  | |- keeps _ (try_except _ _) => apply keeps_try_except; [ | intro ]
  | |- keeps grad_enabled (no_grad _) => apply keeps_grad_no_grad
  | |- keeps _ (no_grad _) => apply keeps_no_grad; [ keeps_side | ]
  | |- keeps _ (st_spinner _ _) => unfold st_spinner
  | |- keeps _ (st _) => apply keeps_st; keeps_side
  | |- keeps _ (external _ _ _) => apply keeps_external; keeps_side
  | |- keeps _ (modify entered_inference) => apply keeps_entered; keeps_side
  | |- keeps _ (ret _) => apply keeps_ret
  | |- keeps _ (raise _) => apply keeps_raise
  | |- keeps _ (gets _) => apply keeps_gets
  | |- keeps _ time_time => apply keeps_gets
  | |- keeps _ (match ?x with _ => _ end) => destruct x
  | |- keeps _ (if ?b then _ else _) => destruct b
  end.

Lemma inference_keeps_quiet
    (w : World) (m : model) (p : option processor) (img : image) (text : str)
    (d : device) :
  keeps quiet (inference w m p img text d).
Proof. unfold inference, inference_steps. repeat keeps_step. Qed.

Lemma inference_keeps_grad
    (w : World) (m : model) (p : option processor) (img : image) (text : str)
    (d : device) :
  keeps grad_enabled (inference w m p img text d).
Proof. unfold inference, inference_steps. repeat keeps_step. Qed.

Lemma raise_for_status_keeps {B} (f : state -> B) (r : response) :
  keeps f (raise_for_status r).
Proof. unfold raise_for_status. repeat keeps_step. Qed.

Lemma load_image_from_url_keeps_store (w : World) (url : str) :
  keeps store (load_image_from_url w url).
Proof.
  unfold load_image_from_url.
  repeat (keeps_step || apply raise_for_status_keeps).
Qed.

Lemma image_column_keeps_store (w : World) (ui : widgets) :
  keeps store (image_column w ui).
Proof.
  unfold image_column. cbv zeta.
  repeat (keeps_step || apply load_image_from_url_keeps_store).
Qed.

Lemma inference_keeps_store
    (w : World) (m : model) (p : option processor) (img : image) (text : str)
    (d : device) :
  keeps store (inference w m p img text d).
Proof. unfold inference, inference_steps. repeat keeps_step. Qed.

Lemma question_column_keeps_store
    (w : World) (ui : widgets) (image : option image) :
  keeps store (question_column w ui image).
Proof.
  unfold question_column. cbv zeta.
  repeat (keeps_step || apply inference_keeps_store).
Qed.

(** After the sidebar, nothing in [main] touches the session or the
    cache. *)
Lemma main_store (w : World) (ui : widgets) (s : state) :
  store (snd (main w ui s))
  = store (snd (sidebar w ui
                  (render (UiMarkdown (u"用 AI 詢問圖片中的任何問題 | Ask AI anything about images"))
                     (render (UiTitle (u"PaliGemma Vision Question Answering")) s)))).
Proof.
  unfold main. unfold bind at 1 2 3. unfold st at 1 2. unfold modify.
  destruct (sidebar w ui _) as [[[] | e] s1]; [ | reflexivity ]. cbn [snd].
  pose proof (image_column_keeps_store w ui s1) as Himg.
  unfold bind. destruct (image_column w ui s1) as [[image | e] s2];
    cbn [snd] in *.
  - rewrite (question_column_keeps_store w ui image s2). exact Himg.
  - exact Himg.
Qed.

(** X1.  Whatever the processor and the model do, return or raise, a
    call of [inference] leaves [st.session_state], the resource cache and
    the rendered page as they were, and torch's gradient mode is the one
    it found: only the call trace, the clock and the call counter move. *)
Theorem inference_leaves_session_page_and_grad
    (w : World) (m : model) (p : option processor) (img : image) (text : str)
    (d : device) (s : state) :
  session (snd (inference w m p img text d s)) = session s
  /\ cache (snd (inference w m p img text d s)) = cache s
  /\ rendered (snd (inference w m p img text d s)) = rendered s
  /\ grad_enabled (snd (inference w m p img text d s)) = grad_enabled s.
Proof.
  pose proof (inference_keeps_quiet w m p img text d s) as Hq.
  pose proof (inference_keeps_grad w m p img text d s) as Hg.
  unfold quiet in Hq. inversion Hq as [[H1 H2 H3]].
  repeat split; assumption.
Qed.

(** ** Loading the model, continued *)

(** X2.  When the load button is clicked with nothing cached and both
    the model (asked for in bfloat16 on the picked device) and the
    processor load, the run of [main] ends with the session holding that
    model, that processor and the picked device, and with the same triple
    in the cache, whatever the rest of the run does. *)
Theorem successful_load_fills_session
    (w : World) (ui : widgets) (s : state) (mdl : model) (p : processor) :
  load_model_button ui = true ->
  cache s = None ->
  model_from_pretrained w model_id Bfloat16 (pick_device w) = inr mdl ->
  processor_from_pretrained w model_id = inr p ->
  session (snd (main w ui s)) = mk_session (Some mdl) (Some p) (pick_device w)
  /\ cache (snd (main w ui s)) = Some (mdl, p, pick_device w).
Proof.
  intros Hbutton Hcache Hm Hp.
  pose proof (main_store w ui s) as Hstore. revert Hstore.
  unfold sidebar, load_model, cache_resource, load_model_body.
  rewrite Hbutton. unfold_monad. cbn. rewrite Hcache, Hm. cbn.
  rewrite Hp. cbn.
  unfold store. intros H. inversion H as [[H1 H2]]. split; reflexivity.
Qed.

Lemma successful_load_fills_session_witness :
  session (snd (main Samples.world_ok Samples.click_load_model Samples.fresh))
  = mk_session (Some (mk_model model_id Bfloat16 Cpu))
      (Some (mk_processor model_id)) (pick_device Samples.world_ok)
  /\ cache (snd (main Samples.world_ok Samples.click_load_model
                   Samples.fresh))
     = Some (mk_model model_id Bfloat16 Cpu, mk_processor model_id,
             pick_device Samples.world_ok).
Proof.
  apply (successful_load_fills_session Samples.world_ok
           Samples.click_load_model Samples.fresh); reflexivity.
Defined.

(** X3.  When the cache already holds a triple, a click on the load
    button loads nothing: the sidebar makes no external call and does not
    move the clock, and the run of [main] ends with the cached triple in
    the session. *)
Theorem cached_load_calls_nothing
    (w : World) (ui : widgets) (s : state) (mdl : model) (p : processor)
    (d : device) :
  load_model_button ui = true ->
  cache s = Some (mdl, p, d) ->
  fst (sidebar w ui s) = Ok tt
  /\ trace (snd (sidebar w ui s)) = trace s
  /\ clock (snd (sidebar w ui s)) = clock s
  /\ session (snd (main w ui s)) = mk_session (Some mdl) (Some p) d
  /\ cache (snd (main w ui s)) = Some (mdl, p, d).
Proof.
  intros Hbutton Hcache.
  pose proof (main_store w ui s) as Hstore. revert Hstore.
  unfold sidebar, load_model, cache_resource.
  rewrite Hbutton. unfold_monad. cbn. rewrite Hcache. cbn.
  unfold store. cbn. rewrite Hcache.
  intros H. inversion H as [[H1 H2]]. repeat split; reflexivity.
Qed.

Lemma cached_load_calls_nothing_witness :
  fst (sidebar Samples.world_no_processor Samples.click_load_model
         Scenarios.fresh_with_cache) = Ok tt
  /\ trace (snd (sidebar Samples.world_no_processor Samples.click_load_model
                   Scenarios.fresh_with_cache))
     = trace Scenarios.fresh_with_cache
  /\ clock (snd (sidebar Samples.world_no_processor Samples.click_load_model
                   Scenarios.fresh_with_cache))
     = clock Scenarios.fresh_with_cache
  /\ session (snd (main Samples.world_no_processor Samples.click_load_model
                     Scenarios.fresh_with_cache))
     = mk_session (Some Samples.the_model) (Some Samples.the_processor) Cpu
  /\ cache (snd (main Samples.world_no_processor Samples.click_load_model
                   Scenarios.fresh_with_cache))
     = Some (Samples.the_model, Samples.the_processor, Cpu).
Proof.
  apply (cached_load_calls_nothing Samples.world_no_processor
           Samples.click_load_model Scenarios.fresh_with_cache);
    reflexivity.
Defined.

(** X4.  Without a click on the load button, a run of [main] leaves
    [st.session_state] and the cache exactly as they were, whether it
    ends normally or by an exception. *)
Theorem no_load_click_keeps_session
    (w : World) (ui : widgets) (s : state) :
  load_model_button ui = false ->
  session (snd (main w ui s)) = session s
  /\ cache (snd (main w ui s)) = cache s.
Proof.
  intros Hbutton.
  pose proof (main_store w ui s) as Hstore. revert Hstore.
  unfold sidebar. rewrite Hbutton. unfold_monad. cbn.
  destruct (ss_model (session s)); cbn; unfold store; cbn;
    intros H; inversion H as [[H1 H2]]; split; reflexivity.
Qed.

Lemma no_load_click_keeps_session_witness :
  session (snd (main Samples.world_oom (Samples.ask_upload (u"hi"))
                  Samples.loaded))
  = session Samples.loaded
  /\ cache (snd (main Samples.world_oom (Samples.ask_upload (u"hi"))
                   Samples.loaded))
     = cache Samples.loaded.
Proof.
  apply (no_load_click_keeps_session Samples.world_oom
           (Samples.ask_upload (u"hi")) Samples.loaded).
  reflexivity.
Defined.

Lemma load_model_keeps_session (w : World) : keeps session (load_model w).
Proof.
  unfold load_model, cache_resource, load_model_body.
  repeat keeps_step. intro s. reflexivity.
Qed.

(** The sidebar either leaves the session alone or stores a full triple. *)
Lemma sidebar_session (w : World) (ui : widgets) (s : state) :
  session (snd (sidebar w ui s)) = session s
  \/ exists mdl p d,
       session (snd (sidebar w ui s)) = mk_session (Some mdl) (Some p) d.
Proof.
  unfold sidebar. destruct (load_model_button ui).
  - unfold st, bind, gets, modify, ret.
    match goal with
    | |- context [load_model w ?x] =>
        pose proof (load_model_keeps_session w x) as Hload;
        destruct (load_model w x) as [[[[mdl p] d] | e] s1]
    end; cbn in *.
    + right. exists mdl, p, d. reflexivity.
    + left. exact Hload.
  - left. unfold_monad. cbn. destruct (ss_model (session s)); reflexivity.
Qed.

(** X5.  A run of [main] never leaves a model in the session without its
    processor: if the session was complete before the run (as the initial
    one is), it is complete after it, however the run ends. *)
Theorem main_keeps_session_complete
    (w : World) (ui : widgets) (s : state) :
  session_complete (session s) ->
  session_complete (session (snd (main w ui s))).
Proof.
  intros Hs.
  pose proof (main_store w ui s) as Hstore. unfold store in Hstore.
  inversion Hstore as [[Hsession Hcache]]. rewrite Hsession.
  destruct (sidebar_session w ui
              (render (UiMarkdown (u"用 AI 詢問圖片中的任何問題 | Ask AI anything about images"))
                 (render (UiTitle (u"PaliGemma Vision Question Answering")) s)))
    as [Hsame | [mdl [p [d Hset]]]].
  - rewrite Hsame. exact Hs.
  - rewrite Hset. intros _. discriminate.
Qed.

Lemma main_keeps_session_complete_witness :
  session_complete (initial_session Samples.world_ok)
  /\ session_complete
       (session (snd (main Samples.world_no_processor
                        Samples.click_load_model Samples.fresh))).
Proof.
  assert (H : session_complete (session Samples.fresh)).
  { intros Hm. exfalso. apply Hm. reflexivity. }
  split; [ exact H | ].
  apply (main_keeps_session_complete Samples.world_no_processor
           Samples.click_load_model Samples.fresh H).
Defined.

(** ** Image acquisition, continued *)

Lemma radio_first_is_upload :
  str_eqb (st_radio radio_options 0) (u"上傳本機檔案") = true.
Proof. reflexivity. Qed.

Lemma radio_second_is_not_upload :
  str_eqb (st_radio radio_options 1) (u"上傳本機檔案") = false.
Proof. reflexivity. Qed.

Lemma radio_second_is_url :
  str_eqb (st_radio radio_options 1) (u"輸入圖片 URL") = true.
Proof. reflexivity. Qed.

(** X6.  An uploaded file that PIL cannot open is not reported the way a
    bad URL is: with the upload source selected and no click on the load
    button, the exception of [Image.open] leaves [main] uncaught, after
    that one call, and the question column never runs ([inference] is not
    entered). *)
Theorem undecodable_upload_escapes_main
    (w : World) (ui : widgets) (s : state) (f : bytes) (e : exn) :
  load_model_button ui = false ->
  image_source_index ui = 0 ->
  uploaded_file ui = Some f ->
  Image_open w f = inl e ->
  fst (main w ui s) = Raise e
  /\ trace (snd (main w ui s))
     = trace s ++ [mk_entry (Call_Image_open f) (grad_enabled s)]
  /\ inference_calls (snd (main w ui s)) = inference_calls s.
Proof.
  intros Hbutton Hsource Hfile Hopen.
  unfold main, sidebar, image_column. cbv zeta.
  rewrite Hbutton, Hsource, radio_first_is_upload, Hfile.
  unfold_monad. cbn.
  destruct (ss_model (session s)); cbn; rewrite Hopen; cbn;
    repeat split; reflexivity.
Qed.

Lemma undecodable_upload_escapes_main_witness :
  fst (main Samples.world_ok Scenarios.ask_bad_upload Samples.loaded)
  = Raise Samples.UnidentifiedImageError
  /\ trace (snd (main Samples.world_ok Scenarios.ask_bad_upload
                   Samples.loaded))
     = trace Samples.loaded
       ++ [mk_entry (Call_Image_open Samples.html_bytes)
             (grad_enabled Samples.loaded)]
  /\ inference_calls
       (snd (main Samples.world_ok Scenarios.ask_bad_upload Samples.loaded))
     = inference_calls Samples.loaded.
Proof.
  apply (undecodable_upload_escapes_main Samples.world_ok
           Scenarios.ask_bad_upload Samples.loaded Samples.html_bytes
           Samples.UnidentifiedImageError); reflexivity.
Defined.

(** X7.  With the URL source selected, nothing is fetched unless a URL is
    typed in and the fetch button is clicked in this very run: with an
    empty URL, or without the click, the image column makes no call,
    renders only its subheader and leaves [image] at [None]. *)
Theorem url_needs_text_and_click
    (w : World) (ui : widgets) (s : state) :
  image_source_index ui = 1 ->
  url_input ui = [] \/ load_image_button ui = false ->
  image_column w ui s = (Ok None, render (UiSubheader (u"圖片來源")) s).
Proof.
  intros Hsource Hno.
  unfold image_column. cbv zeta.
  rewrite Hsource, radio_second_is_not_upload, radio_second_is_url.
  assert (Hcond : str_truthy (url_input ui) && load_image_button ui = false).
  { destruct Hno as [H | H]; rewrite H.
    - reflexivity.
    - apply andb_false_r. }
  rewrite Hcond. reflexivity.
Qed.

Lemma url_needs_text_and_click_witness :
  image_column Samples.world_ok Scenarios.ask_url_without_fetch Samples.loaded
  = (Ok None, render (UiSubheader (u"圖片來源")) Samples.loaded).
Proof.
  apply (url_needs_text_and_click Samples.world_ok
           Scenarios.ask_url_without_fetch Samples.loaded).
  - reflexivity.
  - right. reflexivity.
Defined.

(** X8.  An image returned by [load_image_from_url] always comes from a
    response whose status [raise_for_status] accepts, whose body was read
    and opened by PIL: it is that decoded image converted to RGB, with the
    same width and height, and no error was rendered. *)
Theorem fetched_image_origin
    (w : World) (url : str) (s s' : state) (img : image) :
  load_image_from_url w url s = (Ok (Some img), s') ->
  exists r b decoded,
    requests_get w url true 10 = inr r
    /\ ~ (400 <= status_code r < 600)%N
    /\ content r = inr b
    /\ Image_open w b = inr decoded
    /\ img = convert ModeRGB decoded
    /\ im_width img = im_width decoded
    /\ im_height img = im_height decoded
    /\ rendered s' = rendered s.
Proof.
  unfold load_image_from_url, raise_for_status. unfold_monad. cbn.
  destruct (requests_get w url true 10) as [e | r] eqn:Hget.
  { destruct (exn_is_Exception e); intros H; inversion H. }
  destruct (str_truthy (http_error_msg r)) eqn:Hstatus; cbn.
  { intros H; inversion H. }
  destruct (content r) as [e | b] eqn:Hbody; cbn.
  { destruct (exn_is_Exception e); intros H; inversion H. }
  destruct (Image_open w b) as [e | decoded] eqn:Hopen; cbn.
  { destruct (exn_is_Exception e); intros H; inversion H. }
  intros H. inversion H. subst.
  exists r, b, decoded.
  split; [ reflexivity | ].
  split; [ | repeat split; (assumption || reflexivity) ].
  intros Hrange. rewrite (http_error_msg_error_status r Hrange) in Hstatus.
  discriminate.
Qed.

Lemma fetched_image_origin_witness :
  exists r b decoded,
    requests_get Samples.world_ok Samples.example_url true 10 = inr r
    /\ ~ (400 <= status_code r < 600)%N
    /\ content r = inr b
    /\ Image_open Samples.world_ok b = inr decoded
    /\ mk_image ModeRGB 224 224 = convert ModeRGB decoded
    /\ im_width (mk_image ModeRGB 224 224) = im_width decoded
    /\ im_height (mk_image ModeRGB 224 224) = im_height decoded
    /\ rendered
         (snd (load_image_from_url Samples.world_ok Samples.example_url
                 Samples.fresh))
       = rendered Samples.fresh.
Proof.
  apply (fetched_image_origin Samples.world_ok Samples.example_url
           Samples.fresh
           (snd (load_image_from_url Samples.world_ok Samples.example_url
                   Samples.fresh))
           (mk_image ModeRGB 224 224)).
  reflexivity.
Defined.

(** ** The question column, continued *)

Lemma inference_failure_result
    (w : World) (m : model) (p : processor) (img : image) (text : str)
    (d : device) (e : exn) (s : state) :
  step_failure w m p img text d e ->
  fst (inference w m (Some p) img text d s)
  = if exn_is_Exception e then Ok (u"錯誤: " ++ exn_str e, None) else Raise e.
Proof.
  intros Hfail. unfold inference, inference_steps. unfold_monad. cbn.
  destruct Hfail as
    [e Henc | b0 e Henc Hdev | b0 b1 e Henc Hdev Hdt
    | b0 b1 b2 e Henc Hdev Hdt Hgen | b0 b1 b2 Henc Hdev Hdt Hgen
    | b0 b1 b2 seq rest e Henc Hdev Hdt Hgen Hdec];
    rewrite Henc; cbn;
    try (rewrite Hdev; cbn); try (rewrite Hdt; cbn);
    try (rewrite Hgen; cbn); try (rewrite Hdec; cbn);
    try (destruct (exn_is_Exception e)); reflexivity.
Qed.

Lemma bind_run {A B} (c : M A) (k : A -> M B) (s : state) :
  bind c k s
  = match c s with
    | (Ok a, s') => k a s'
    | (Raise e, s') => (Raise e, s')
    end.
Proof. reflexivity. Qed.

(** The run of the question column once the gate is passed, in terms of
    the run of [inference] it contains. *)
Lemma main_after_gate
    (w : World) (ui : widgets) (s s1 : state) (img : image) (m : model) :
  before_question w ui s = (Ok (Some img), s1) ->
  ask_button ui = true ->
  ss_model (session s1) = Some m ->
  strip (question_input ui) <> [] ->
  main w ui s
  = (r <- inference w m (ss_processor (session s1)) img (question_input ui)
            (ss_device (session s1)) ;;
     st (UiMarkdown (u"結果")) ;;
     st (UiResultBox (fst r)) ;;
     match snd r with
     | Some t =>
         if (t =? 0)%Z then ret tt
         else st (UiMetricSeconds (u"推理時間") t)
     | None => ret tt
     end ;;
     st (UiMetric (u"模型大小") (u"3B 參數")) ;;
     st (UiCode (fst r)))
      (render (UiSpinner (u"AI 正在思考中..."))
         (render (UiMarkdown (u"---"))
            (render (UiSubheader (u"問題")) s1))).
Proof.
  intros Hrun Hask Hm Hq.
  rewrite main_split, Hrun. unfold question_column. rewrite Hask.
  unfold st_spinner.
  unfold bind at 1. unfold st at 1. unfold modify at 1.
  unfold bind at 1. unfold st at 1. unfold modify at 1.
  unfold bind at 1. unfold gets at 1. cbn [session render].
  rewrite Hm.
  destruct (strip (question_input ui)) as [ | c q]; [ congruence | ].
  cbn [str_truthy negb].
  unfold bind at 1. unfold gets at 1.
  unfold bind at 1. unfold gets at 1.
  cbn [session render].
  unfold bind at 1 2. unfold st at 1. unfold modify at 1.
  reflexivity.
Qed.

(** X9.  When the gate is passed and a step of [inference] fails with an
    exception [e] deriving from [Exception], the run of [main] still ends
    normally and the page shows the text "錯誤: " followed by [str(e)]
    where the answer goes, in the result box and in the code block, with
    the model-size metric and without the latency metric. *)
Theorem failed_inference_is_shown_as_answer
    (w : World) (ui : widgets) (s s1 : state) (img : image) (m : model)
    (p : processor) (e : exn) :
  before_question w ui s = (Ok (Some img), s1) ->
  ask_button ui = true ->
  ss_model (session s1) = Some m ->
  ss_processor (session s1) = Some p ->
  strip (question_input ui) <> [] ->
  step_failure w m p img (question_input ui) (ss_device (session s1)) e ->
  exn_is_Exception e = true ->
  fst (main w ui s) = Ok tt
  /\ rendered (snd (main w ui s))
     = rendered s1 ++ question_header
       ++ [UiMarkdown (u"結果");
           UiResultBox (u"錯誤: " ++ exn_str e);
           UiMetric (u"模型大小") (u"3B 參數");
           UiCode (u"錯誤: " ++ exn_str e)].
Proof.
  intros Hrun Hask Hm Hp Hq Hfail Hexc.
  rewrite (main_after_gate w ui s s1 img m Hrun Hask Hm Hq). rewrite Hp.
  set (s0 := render _ (render _ (render _ s1))).
  pose proof (inference_failure_result w m p img (question_input ui)
                (ss_device (session s1)) e s0 Hfail) as Hres.
  rewrite Hexc in Hres.
  pose proof (inference_keeps_quiet w m (Some p) img (question_input ui)
                (ss_device (session s1)) s0) as Hquiet.
  rewrite bind_run.
  destruct (inference w m (Some p) img (question_input ui)
              (ss_device (session s1)) s0) as [r s2].
  cbn in Hres, Hquiet. subst r. unfold quiet in Hquiet.
  assert (H3 : rendered s2 = rendered s0) by congruence.
  unfold_monad. cbn. split; [ reflexivity | ].
  rewrite H3. unfold s0, question_header. cbn.
  repeat rewrite <- app_assoc. reflexivity.
Qed.

Lemma failed_inference_is_shown_as_answer_witness :
  fst (main Samples.world_oom (Samples.ask_upload (u"hi")) Samples.loaded)
  = Ok tt
  /\ rendered (snd (main Samples.world_oom (Samples.ask_upload (u"hi"))
                      Samples.loaded))
     = rendered (snd (before_question Samples.world_oom
                        (Samples.ask_upload (u"hi")) Samples.loaded))
       ++ question_header
       ++ [UiMarkdown (u"結果");
           UiResultBox (u"錯誤: " ++ exn_str Samples.OutOfMemoryError);
           UiMetric (u"模型大小") (u"3B 參數");
           UiCode (u"錯誤: " ++ exn_str Samples.OutOfMemoryError)].
Proof.
  apply (failed_inference_is_shown_as_answer Samples.world_oom
           (Samples.ask_upload (u"hi")) Samples.loaded
           (snd (before_question Samples.world_oom
                   (Samples.ask_upload (u"hi")) Samples.loaded))
           (convert ModeRGB Samples.rgba_image) Samples.the_model
           Samples.the_processor Samples.OutOfMemoryError).
  - reflexivity.
  - reflexivity.
  - reflexivity.
  - reflexivity.
  - intro H. vm_compute in H. discriminate H.
  - apply (generation_raises _ _ _ _ _ _
             (mk_batch (u"hi") Cpu Float32) (mk_batch (u"hi") Cpu Float32)
             (mk_batch (u"hi") Cpu Bfloat16));
      reflexivity.
  - reflexivity.
Defined.

(** X10.  When the gate is passed and every step of [inference]
    succeeds, the page shows the decoded text in the result box and in the
    code block, and the model-size metric; the latency metric is shown
    only when the measured latency is not zero ([if inference_time:]). *)
Theorem successful_answer_page
    (w : World) (ui : widgets) (s s1 : state) (img : image) (m : model)
    (p : processor) (b0 b1 b2 : batch) (seq : list N) (rest : list (list N))
    (txt : str) :
  before_question w ui s = (Ok (Some img), s1) ->
  ask_button ui = true ->
  ss_model (session s1) = Some m ->
  ss_processor (session s1) = Some p ->
  strip (question_input ui) <> [] ->
  run_ok w m p img (question_input ui) (ss_device (session s1))
    b0 b1 b2 seq rest txt ->
  fst (main w ui s) = Ok tt
  /\ rendered (snd (main w ui s))
     = rendered s1 ++ question_header
       ++ [UiMarkdown (u"結果"); UiResultBox txt]
       ++ (if (duration w (Call_generate m b2 496) =? 0)%Z then []
           else [UiMetricSeconds (u"推理時間")
                   (duration w (Call_generate m b2 496))])
       ++ [UiMetric (u"模型大小") (u"3B 參數"); UiCode txt].
Proof.
  intros Hrun Hask Hm Hp Hq Hok.
  rewrite (main_after_gate w ui s s1 img m Hrun Hask Hm Hq). rewrite Hp.
  set (s0 := render _ (render _ (render _ s1))).
  destruct (inference_success w m p img (question_input ui)
              (ss_device (session s1)) b0 b1 b2 seq rest txt s0 Hok)
    as [s2 [Hres _]].
  pose proof (inference_keeps_quiet w m (Some p) img (question_input ui)
                (ss_device (session s1)) s0) as Hquiet.
  rewrite bind_run. rewrite Hres in *. cbn in Hquiet.
  unfold quiet in Hquiet.
  assert (H3 : rendered s2 = rendered s0) by congruence.
  unfold_monad. cbn.
  destruct (duration w (Call_generate m b2 496) =? 0)%Z; cbn;
    (split; [ reflexivity | ]);
    rewrite H3; unfold s0, question_header; cbn;
    repeat rewrite <- app_assoc; reflexivity.
Qed.

Lemma successful_answer_page_witness :
  fst (main Scenarios.world_instant (Samples.ask_upload (u"hi"))
         Samples.loaded) = Ok tt
  /\ rendered (snd (main Scenarios.world_instant (Samples.ask_upload (u"hi"))
                      Samples.loaded))
     = rendered (snd (before_question Scenarios.world_instant
                        (Samples.ask_upload (u"hi")) Samples.loaded))
       ++ question_header
       ++ [UiMarkdown (u"結果"); UiResultBox (u"hired")]
       ++ (if (duration Scenarios.world_instant
                 (Call_generate Samples.the_model
                    (mk_batch (u"hi") Cpu Bfloat16) 496) =? 0)%Z
           then []
           else [UiMetricSeconds (u"推理時間")
                   (duration Scenarios.world_instant
                      (Call_generate Samples.the_model
                         (mk_batch (u"hi") Cpu Bfloat16) 496))])
       ++ [UiMetric (u"模型大小") (u"3B 參數"); UiCode (u"hired")].
Proof.
  apply (successful_answer_page Scenarios.world_instant
           (Samples.ask_upload (u"hi")) Samples.loaded
           (snd (before_question Scenarios.world_instant
                   (Samples.ask_upload (u"hi")) Samples.loaded))
           (convert ModeRGB Samples.rgba_image) Samples.the_model
           Samples.the_processor
           (mk_batch (u"hi") Cpu Float32) (mk_batch (u"hi") Cpu Float32)
           (mk_batch (u"hi") Cpu Bfloat16) (u"hired") [] (u"hired")).
  - reflexivity.
  - reflexivity.
  - reflexivity.
  - reflexivity.
  - intro H. vm_compute in H. discriminate H.
  - split; reflexivity.
Defined.

(** ** Whitespace and the gate *)

Lemma lstrip_nil_iff (s : str) :
  lstrip s = [] <-> forallb isspace s = true.
Proof.
  induction s as [ | c s IH]; simpl.
  - split; reflexivity.
  - destruct (isspace c); simpl.
    + exact IH.
    + split; discriminate.
Qed.

Lemma lstrip_head (s t : str) (c : N) :
  lstrip s = c :: t -> isspace c = false.
Proof.
  induction s as [ | a s IH]; simpl.
  - discriminate.
  - destruct (isspace a) eqn:Ha.
    + exact IH.
    + intros H. inversion H. subst. exact Ha.
Qed.

Lemma forallb_rev {A} (f : A -> bool) (l : list A) :
  forallb f (rev l) = forallb f l.
Proof.
  induction l as [ | a l IH]; simpl.
  - reflexivity.
  - rewrite forallb_app, IH. simpl. rewrite andb_true_r. apply andb_comm.
Qed.

(** [s.strip()] is empty exactly when [s] is made of whitespace only. *)
Lemma strip_nil_iff (s : str) :
  strip s = [] <-> forallb isspace s = true.
Proof.
  unfold strip, rstrip. split.
  - intros H.
    assert (Hl : lstrip (rev (lstrip s)) = []).
    { destruct (lstrip (rev (lstrip s))) as [ | c t]; [ reflexivity | ].
      simpl in H. destruct (rev t); discriminate. }
    apply lstrip_nil_iff in Hl. rewrite forallb_rev in Hl.
    destruct (lstrip s) as [ | c t] eqn:Hs.
    + apply lstrip_nil_iff. exact Hs.
    + apply lstrip_head in Hs. simpl in Hl. rewrite Hs in Hl. discriminate.
  - intros H. apply lstrip_nil_iff in H. rewrite H. reflexivity.
Qed.

(** The number of entries into [inference] during a run of [main] whose
    first part ended normally. *)
Lemma main_count
    (w : World) (ui : widgets) (s s1 : state) (image : option image) :
  before_question w ui s = (Ok image, s1) ->
  inference_calls (snd (main w ui s))
  = if ask_button ui
    then match ss_model (session s1), image with
         | Some _, Some _ =>
             if forallb isspace (question_input ui) then inference_calls s
             else S (inference_calls s)
         | _, _ => inference_calls s
         end
    else inference_calls s.
Proof.
  intros Hrun.
  pose proof (keeps_count_before_question w ui s) as Hbefore.
  rewrite Hrun in Hbefore. cbn in Hbefore.
  destruct (ask_button ui) eqn:Hask;
    [ destruct (ss_model (session s1)) as [m | ] eqn:Hm;
      [ destruct image as [img | ];
        [ destruct (forallb isspace (question_input ui)) eqn:Hblank | ] | ] | ].
  - apply strip_nil_iff in Hblank.
    rewrite main_split, Hrun. unfold question_column. rewrite Hask.
    unfold_monad. cbn. rewrite Hm, Hblank. exact Hbefore.
  - assert (Hq : strip (question_input ui) <> []).
    { intros H. apply strip_nil_iff in H. congruence. }
    rewrite (main_after_gate w ui s s1 img m Hrun Hask Hm Hq).
    rewrite bind_run.
    match goal with
    | |- context [inference ?a ?b ?c ?d ?e ?f ?g] =>
        pose proof (inference_counts_once a b c d e f g) as Hcount;
        destruct (inference a b c d e f g) as [[r | e0] s2]
    end; cbn in Hcount.
    + unfold_monad. cbn.
      destruct (snd r) as [t | ]; [ destruct (t =? 0)%Z | ]; cbn;
        rewrite Hcount, Hbefore; reflexivity.
    + cbn. rewrite Hcount, Hbefore. reflexivity.
  - rewrite main_split, Hrun. unfold question_column. rewrite Hask.
    unfold_monad. cbn. rewrite Hm. exact Hbefore.
  - rewrite main_split, Hrun. unfold question_column. rewrite Hask.
    unfold_monad. cbn. rewrite Hm. exact Hbefore.
  - rewrite main_split, Hrun. unfold question_column. rewrite Hask.
    exact Hbefore.
Qed.

(** X11.  With the ask button clicked, a model in the session and an
    image selected, [main] enters [inference] exactly when the question
    holds a character that is not Unicode whitespace; a question made of
    whitespace only (the empty one included) is turned away. *)
Theorem question_gate_is_whitespace_test
    (w : World) (ui : widgets) (s s1 : state) (img : image) (m : model) :
  before_question w ui s = (Ok (Some img), s1) ->
  ask_button ui = true ->
  ss_model (session s1) = Some m ->
  inference_calls (snd (main w ui s))
  = if forallb isspace (question_input ui) then inference_calls s
    else S (inference_calls s).
Proof.
  intros Hrun Hask Hm.
  rewrite (main_count w ui s s1 (Some img) Hrun), Hask, Hm. reflexivity.
Qed.

Lemma question_gate_is_whitespace_test_witness :
  forallb isspace (question_input (Samples.ask_upload (u" 　a "))) = false
  /\ inference_calls
       (snd (main Samples.world_ok (Samples.ask_upload (u" 　a "))
               Samples.loaded))
     = if forallb isspace (question_input (Samples.ask_upload (u" 　a ")))
       then inference_calls Samples.loaded
       else S (inference_calls Samples.loaded).
Proof.
  split; [ reflexivity | ].
  apply (question_gate_is_whitespace_test Samples.world_ok
           (Samples.ask_upload (u" 　a ")) Samples.loaded
           (snd (before_question Samples.world_ok
                   (Samples.ask_upload (u" 　a ")) Samples.loaded))
           (convert ModeRGB Samples.rgba_image) Samples.the_model);
    reflexivity.
Defined.

(** X12.  A run of [main] enters [inference] at most once, whatever the
    widgets, the world and the way the run ends. *)
Theorem at_most_one_inference_per_run
    (w : World) (ui : widgets) (s : state) :
  inference_calls (snd (main w ui s)) = inference_calls s
  \/ inference_calls (snd (main w ui s)) = S (inference_calls s).
Proof.
  destruct (before_question w ui s) as [[image | e] s1] eqn:Hrun.
  - rewrite (main_count w ui s s1 image Hrun).
    destruct (ask_button ui); [ | left; reflexivity ].
    destruct (ss_model (session s1)); [ | left; reflexivity ].
    destruct image; [ | left; reflexivity ].
    destruct (forallb isspace (question_input ui));
      [ left | right ]; reflexivity.
  - left. pose proof (keeps_count_before_question w ui s) as Hbefore.
    rewrite main_split. rewrite Hrun in *. exact Hbefore.
Qed.

(** X13.  Without a click on the ask button, a run of [main] never
    enters [inference], even with a model loaded, an image selected and a
    question typed in. *)
Theorem no_ask_click_no_inference
    (w : World) (ui : widgets) (s : state) :
  ask_button ui = false ->
  inference_calls (snd (main w ui s)) = inference_calls s.
Proof.
  intros Hask.
  destruct (before_question w ui s) as [[image | e] s1] eqn:Hrun.
  - rewrite (main_count w ui s s1 image Hrun), Hask. reflexivity.
  - pose proof (keeps_count_before_question w ui s) as Hbefore.
    rewrite main_split. rewrite Hrun in *. exact Hbefore.
Qed.

Lemma no_ask_click_no_inference_witness :
  ss_model (session Samples.loaded) = Some Samples.the_model
  /\ fst (image_column Samples.world_ok Scenarios.upload_without_ask
            Samples.loaded) = Ok (Some (mk_image ModeRGB 224 224))
  /\ inference_calls
       (snd (main Samples.world_ok Scenarios.upload_without_ask
               Samples.loaded))
     = inference_calls Samples.loaded.
Proof.
  split; [ reflexivity | ]. split; [ reflexivity | ].
  apply (no_ask_click_no_inference Samples.world_ok
           Scenarios.upload_without_ask Samples.loaded).
  reflexivity.
Defined.

(** ** What the handlers let through *)

(** X14.  An exception that does not derive from [Exception] (a keyboard
    interrupt, say) raised by a step of [inference] is not turned into an
    answer: it leaves [inference] as it is. *)
Theorem inference_lets_base_exceptions_through
    (w : World) (m : model) (p : processor) (img : image) (text : str)
    (d : device) (e : exn) (s : state) :
  step_failure w m p img text d e ->
  exn_is_Exception e = false ->
  fst (inference w m (Some p) img text d s) = Raise e.
Proof.
  intros Hfail Hexc.
  rewrite (inference_failure_result w m p img text d e s Hfail), Hexc.
  reflexivity.
Qed.

Lemma inference_lets_base_exceptions_through_witness :
  fst (inference Scenarios.world_interrupt Samples.the_model
         (Some Samples.the_processor) Samples.rgba_image (u"hi") Cpu
         Samples.loaded)
  = Raise Scenarios.KeyboardInterrupt.
Proof.
  apply (inference_lets_base_exceptions_through Scenarios.world_interrupt
           Samples.the_model Samples.the_processor Samples.rgba_image
           (u"hi") Cpu Scenarios.KeyboardInterrupt Samples.loaded).
  - apply (generation_raises _ _ _ _ _ _
             (mk_batch (u"hi") Cpu Float32) (mk_batch (u"hi") Cpu Float32)
             (mk_batch (u"hi") Cpu Bfloat16));
      reflexivity.
  - reflexivity.
Defined.

Lemma try_except_never_leaks {A} (body : M A) (handler : exn -> M A)
    (s : state) :
  (forall e s0, exists a s1, handler e s0 = (Ok a, s1)) ->
  match fst (try_except body handler s) with
  | Ok _ => True
  | Raise e => exn_is_Exception e = false
  end.
Proof.
  intros Hh. unfold try_except.
  destruct (body s) as [[a | e] s1]; cbn; [ exact I | ].
  destruct (exn_is_Exception e) eqn:He; cbn; [ | exact He ].
  destruct (Hh e s1) as [a [s2 H]]. rewrite H. exact I.
Qed.

(** X15.  Neither [load_image_from_url] nor [inference] ever raises an
    exception deriving from [Exception], in any world and for any
    arguments (a missing processor included): whatever leaves them is
    outside that class. *)
Theorem handlers_never_leak_Exception
    (w : World) (url : str) (m : model) (p : option processor) (img : image)
    (text : str) (d : device) (s : state) :
  match fst (load_image_from_url w url s) with
  | Ok _ => True
  | Raise e => exn_is_Exception e = false
  end
  /\ match fst (inference w m p img text d s) with
     | Ok _ => True
     | Raise e => exn_is_Exception e = false
     end.
Proof.
  split.
  - unfold load_image_from_url. apply try_except_never_leaks.
    intros e s0. eexists. eexists. reflexivity.
  - unfold inference. rewrite bind_run. cbn.
    apply try_except_never_leaks.
    intros e s0. eexists. eexists. reflexivity.
Qed.

(** ** Across widgets and across runs *)

(** The image a normal end of the first part of [main] hands over is the
    one the image column returned. *)
Lemma before_question_image
    (w : World) (ui : widgets) (s s1 : state) (image : option image) :
  before_question w ui s = (Ok image, s1) ->
  exists s0, image_column w ui s0 = (Ok image, s1).
Proof.
  unfold before_question, bind, st, modify.
  match goal with
  | |- context [sidebar w ui ?x] =>
      destruct (sidebar w ui x) as [[[] | e] s0]; [ | discriminate ]
  end.
  intros H. exists s0. exact H.
Qed.

(** X16.  With the URL source selected, a run in which the fetch button
    is not clicked has no image, so it never enters [inference], even
    when the ask button is clicked with a model loaded, a URL typed in
    and a question asked. *)
Theorem url_source_without_fetch_click_never_asks
    (w : World) (ui : widgets) (s : state) :
  image_source_index ui = 1 ->
  load_image_button ui = false ->
  inference_calls (snd (main w ui s)) = inference_calls s.
Proof.
  intros Hsource Hclick.
  destruct (before_question w ui s) as [[image | e] s1] eqn:Hrun.
  - destruct (before_question_image w ui s s1 image Hrun) as [s0 Himg].
    assert (Hnone : image = None).
    { revert Himg. unfold image_column. cbv zeta.
      rewrite Hsource, radio_second_is_not_upload, radio_second_is_url,
        Hclick.
      rewrite andb_false_r. unfold_monad. cbn. intros Himg.
      inversion Himg. reflexivity. }
    subst image.
    rewrite (main_count w ui s s1 None Hrun).
    destruct (ask_button ui); [ | reflexivity ].
    destruct (ss_model (session s1)); reflexivity.
  - pose proof (keeps_count_before_question w ui s) as Hbefore.
    rewrite main_split. rewrite Hrun in *. exact Hbefore.
Qed.

Lemma url_source_without_fetch_click_never_asks_witness :
  inference_calls
    (snd (main Samples.world_ok Scenarios.ask_url_without_fetch
            Samples.loaded))
  = inference_calls Samples.loaded.
Proof.
  apply (url_source_without_fetch_click_never_asks Samples.world_ok
           Scenarios.ask_url_without_fetch Samples.loaded); reflexivity.
Defined.

(** X17.  Loading is done once: after a run in which the load button
    was clicked and the load succeeded, a later click, in any world (the
    model hub may by then be out of reach), makes no call from the
    sidebar and ends with the same session and the same cache. *)
Theorem reload_after_success_calls_nothing
    (w w' : World) (ui ui' : widgets) (s : state) (mdl : model)
    (p : processor) :
  load_model_button ui = true ->
  cache s = None ->
  model_from_pretrained w model_id Bfloat16 (pick_device w) = inr mdl ->
  processor_from_pretrained w model_id = inr p ->
  load_model_button ui' = true ->
  trace (snd (sidebar w' ui' (snd (main w ui s)))) = trace (snd (main w ui s))
  /\ session (snd (main w' ui' (snd (main w ui s))))
     = session (snd (main w ui s))
  /\ cache (snd (main w' ui' (snd (main w ui s)))) = cache (snd (main w ui s)).
Proof.
  intros Hbutton Hcache Hm Hp Hbutton'.
  assert (Hfirst : store (snd (main w ui s))
                   = (mk_session (Some mdl) (Some p) (pick_device w),
                      Some (mdl, p, pick_device w))).
  { rewrite main_store.
    unfold sidebar, load_model, cache_resource, load_model_body.
    rewrite Hbutton. unfold_monad. cbn. rewrite Hcache, Hm. cbn.
    rewrite Hp. reflexivity. }
  remember (snd (main w ui s)) as s1 eqn:Hs1. clear Hs1.
  unfold store in Hfirst. inversion Hfirst as [[Hsession Hcached]].
  assert (Hsecond : store (snd (main w' ui' s1)) = store s1).
  { rewrite main_store. unfold sidebar, load_model, cache_resource.
    rewrite Hbutton'. unfold_monad. cbn. rewrite Hcached. cbn.
    unfold store. cbn. rewrite Hcached, Hsession. reflexivity. }
  unfold store in Hsecond. inversion Hsecond as [[H1 H2]].
  split; [ | split; reflexivity ].
  unfold sidebar, load_model, cache_resource.
  rewrite Hbutton'. unfold_monad. cbn. rewrite Hcached. reflexivity.
Qed.

Lemma reload_after_success_calls_nothing_witness :
  trace (snd (sidebar Samples.world_no_processor Samples.click_load_model
                (snd (main Samples.world_ok Samples.click_load_model
                        Samples.fresh))))
  = trace (snd (main Samples.world_ok Samples.click_load_model Samples.fresh))
  /\ session (snd (main Samples.world_no_processor Samples.click_load_model
                     (snd (main Samples.world_ok Samples.click_load_model
                             Samples.fresh))))
     = session (snd (main Samples.world_ok Samples.click_load_model
                       Samples.fresh))
  /\ cache (snd (main Samples.world_no_processor Samples.click_load_model
                   (snd (main Samples.world_ok Samples.click_load_model
                           Samples.fresh))))
     = cache (snd (main Samples.world_ok Samples.click_load_model
                     Samples.fresh)).
Proof.
  apply (reload_after_success_calls_nothing Samples.world_ok
           Samples.world_no_processor Samples.click_load_model
           Samples.click_load_model Samples.fresh
           (mk_model model_id Bfloat16 Cpu) (mk_processor model_id));
    reflexivity.
Defined.
